(** * The Qualcomm PMIC USB Power-Delivery PHY driver

    A shallow embedding of
    [drivers/usb/typec/tcpm/qcom/qcom_pmic_tcpm_pdphy.c] and the properties
    of its transmit, receive, reset and interrupt paths.

    The driver talks to three collaborators: the register bus ([regmap_*]),
    the supply regulator and the TCPM port manager.  Every call that
    crosses one of these borders is recorded as an [event]; a driver
    function is a state transformer over the device that also yields the
    events it caused, in program order. *)

From Stdlib Require Import ZArith List Lia Bool.
From stdpp Require Import base numbers option list gmap strings.

Local Open Scope Z_scope.

(** ** C integers *)

(** [unsigned int] arithmetic wraps modulo [2^32]. *)
Definition u32 (z : Z) : Z := z mod 2 ^ 32.

(** [~x] on an [unsigned int]. *)
Definition u32_not (z : Z) : Z := Z.lxor z (2 ^ 32 - 1).

Definition BIT (n : Z) : Z := Z.shiftl 1 n.

(** [!on] and the integer value of a C [bool]. *)
Definition bool_to_Z (b : bool) : Z := if b then 1 else 0.

(** ** Constants of headers that are not part of the translated file *)

(** Modelled from the spec: [qcom_pmic_tcpm_pdphy.h] is missing; section 6
    of the specification names the registers (enable-control,
    message-config, TX-control, TX-buffer-header, TX-buffer-data, TX-size,
    RX-status, RX-size, RX-buffer, RX-acknowledge, frame-filter) and their
    fields; the offsets and bit positions are those of the PM8150B PDPHY
    block. *)
Definition USB_PDPHY_MSG_CONFIG_REG : Z := 0x40.
Definition MSG_CONFIG_PORT_DATA_ROLE : Z := BIT 3.
Definition MSG_CONFIG_PORT_POWER_ROLE : Z := BIT 2.
Definition MSG_CONFIG_SPEC_REV_MASK : Z := Z.lor (BIT 1) (BIT 0).
Definition USB_PDPHY_EN_CONTROL_REG : Z := 0x46.
Definition CONTROL_ENABLE : Z := BIT 0.
Definition USB_PDPHY_RX_STATUS_REG : Z := 0x4A.
Definition USB_PDPHY_FRAME_FILTER_REG : Z := 0x4C.
Definition FRAME_FILTER_EN_HARD_RESET : Z := BIT 5.
Definition FRAME_FILTER_EN_SOP : Z := BIT 0.
Definition USB_PDPHY_TX_SIZE_REG : Z := 0x42.
Definition USB_PDPHY_TX_CONTROL_REG : Z := 0x44.
Definition TX_CONTROL_RETRY_COUNT (n : Z) : Z := Z.shiftl (Z.land n 0x3) 5.
Definition TX_CONTROL_FRAME_TYPE (n : Z) : Z := Z.shiftl (Z.land n 0x7) 2.
Definition TX_CONTROL_SEND_SIGNAL : Z := BIT 1.
Definition TX_CONTROL_SEND_MSG : Z := BIT 0.
Definition USB_PDPHY_RX_SIZE_REG : Z := 0x48.
Definition USB_PDPHY_RX_ACKNOWLEDGE_REG : Z := 0x4B.
Definition USB_PDPHY_TX_BUFFER_HDR_REG : Z := 0x60.
Definition USB_PDPHY_TX_BUFFER_DATA_REG : Z := 0x62.
Definition USB_PDPHY_RX_BUFFER_REG : Z := 0x80.

(** Modelled from the spec: [linux/usb/pd.h] is missing; the header of a PD
    message is 16 bits wide and encodes the object count (0 to 7) and the
    protocol revision; the payload holds up to 7 objects of 4 bytes. *)
Definition PD_REV10 : Z := 0x0.
Definition PD_REV20 : Z := 0x1.
Definition PD_REV30 : Z := 0x2.
Definition PD_HEADER_CNT_SHIFT : Z := 12.
Definition PD_HEADER_CNT_MASK : Z := 0x7.
Definition PD_HEADER_REV_SHIFT : Z := 6.
Definition PD_HEADER_REV_MASK : Z := 0x3.
Definition PD_MAX_PAYLOAD : Z := 7.

(** [-EBUSY] of [linux/errno.h]. *)
Definition EBUSY : Z := 16.

(** Modelled from the spec: [linux/usb/tcpm.h] is missing; a transmit type
    is a data message (SOP and its variants) or one of the control signals,
    among them hard reset and cable reset. *)
Inductive tcpm_transmit_type : Type :=
  | TCPC_TX_SOP
  | TCPC_TX_SOP_PRIME
  | TCPC_TX_SOP_PRIME_PRIME
  | TCPC_TX_SOP_DEBUG_PRIME
  | TCPC_TX_SOP_DEBUG_PRIME_PRIME
  | TCPC_TX_HARD_RESET
  | TCPC_TX_CABLE_RESET
  | TCPC_TX_BIST_MODE_2.

Definition transmit_type_val (t : tcpm_transmit_type) : Z :=
  match t with
  | TCPC_TX_SOP => 0
  | TCPC_TX_SOP_PRIME => 1
  | TCPC_TX_SOP_PRIME_PRIME => 2
  | TCPC_TX_SOP_DEBUG_PRIME => 3
  | TCPC_TX_SOP_DEBUG_PRIME_PRIME => 4
  | TCPC_TX_HARD_RESET => 5
  | TCPC_TX_CABLE_RESET => 6
  | TCPC_TX_BIST_MODE_2 => 7
  end.

Inductive tcpm_transmit_status : Type :=
  | TCPC_TX_SUCCESS
  | TCPC_TX_DISCARDED
  | TCPC_TX_FAILED.

(** Modelled from the spec: [dt-bindings/usb/typec/tcpm/qcom,pmic-usb-pdphy.h]
    is missing; the seven interrupt lines in the order of the resource
    table [pm8150b_pdphy_res]. *)
Definition PMIC_PDPHY_SIG_TX_IRQ : Z := 0x0.
Definition PMIC_PDPHY_SIG_RX_IRQ : Z := 0x1.
Definition PMIC_PDPHY_MSG_TX_IRQ : Z := 0x2.
Definition PMIC_PDPHY_MSG_RX_IRQ : Z := 0x3.
Definition PMIC_PDPHY_MSG_TX_FAIL_IRQ : Z := 0x4.
Definition PMIC_PDPHY_MSG_TX_DISCARD_IRQ : Z := 0x5.
Definition PMIC_PDPHY_MSG_RX_DISCARD_IRQ : Z := 0x6.

Definition IRQ_HANDLED : Z := 1.

(** ** PD messages *)

(** [struct pd_message]: the little-endian header and the payload as it
    lies in memory, byte by byte ([sizeof(msg.payload)] is 28). *)
Record pd_message : Type := {
  header : Z;
  payload : list Z
}.

Definition sizeof_header : Z := 2.
Definition sizeof_payload : Z := 4 * PD_MAX_PAYLOAD.
Definition sizeof_pd_message : Z := sizeof_header + sizeof_payload.

Definition pd_header_cnt (hdr : Z) : Z :=
  Z.land (Z.shiftr hdr PD_HEADER_CNT_SHIFT) PD_HEADER_CNT_MASK.

(** The target is little-endian: [le16_to_cpu] is the identity. *)
Definition pd_header_cnt_le (hdr : Z) : Z := pd_header_cnt hdr.

Definition pd_header_rev (hdr : Z) : Z :=
  Z.land (Z.shiftr hdr PD_HEADER_REV_SHIFT) PD_HEADER_REV_MASK.

(** The two bytes of the header as [regmap_bulk_write] sees them. *)
Definition header_bytes (hdr : Z) : list Z :=
  [Z.land hdr 0xFF; Z.land (Z.shiftr hdr 8) 0xFF].

(** A byte of a stack buffer: [None] until something has been stored. *)
Definition stack_byte : Type := option Z.

(** ** Events *)

Inductive loglevel : Type := LOG_ERR | LOG_DBG | LOG_VDBG.

Inductive event : Type :=
  | ev_spin_lock_irqsave
  | ev_spin_unlock_irqrestore
  | ev_regmap_write (reg val ret : Z)
  | ev_regmap_read (reg ret : Z)
  | ev_regmap_bulk_write (reg : Z) (data : list Z) (ret : Z)
  | ev_regmap_bulk_read (reg count ret : Z)
  | ev_regmap_update_bits (reg mask val ret : Z)
  | ev_regulator_enable (ret : Z)
  | ev_regulator_disable
  | ev_log (lvl : loglevel) (msg : string)
  | ev_schedule_work
  | ev_usleep_range (lo hi : Z)
  | ev_tcpm_pd_hard_reset
  | ev_tcpm_pd_receive (msg : list stack_byte)
  | ev_tcpm_pd_transmit_complete (status : tcpm_transmit_status).

(** ** The device *)

(** [struct pmic_pdphy] together with what stands behind its handles:
    [regmap] holds the contents of the byte-wide registers, [vdd_pdphy] the
    use count of the supply, [reset_work] whether the hard-reset work item
    is queued.  [bus] is the environment: the return codes of the coming
    calls into the register bus and the regulator, one for each call, in
    call order; when the list is used up the calls succeed. *)
Record pmic_pdphy : Type := {
  base : Z;
  regmap : gmap Z Z;
  vdd_pdphy : nat;
  reset_work : bool;
  bus : list Z
}.

(** The contents of a register; a register never written reads as 0. *)
Definition reg_val (m : gmap Z Z) (reg : Z) : Z := default 0 (m !! reg).
Definition reg_get (p : pmic_pdphy) (reg : Z) : Z := reg_val (regmap p) reg.

Definition with_regmap (p : pmic_pdphy) (m : gmap Z Z) : pmic_pdphy :=
  {| base := base p; regmap := m; vdd_pdphy := vdd_pdphy p;
     reset_work := reset_work p; bus := bus p |}.

Definition with_vdd (p : pmic_pdphy) (n : nat) : pmic_pdphy :=
  {| base := base p; regmap := regmap p; vdd_pdphy := n;
     reset_work := reset_work p; bus := bus p |}.

Definition with_reset_work (p : pmic_pdphy) (b : bool) : pmic_pdphy :=
  {| base := base p; regmap := regmap p; vdd_pdphy := vdd_pdphy p;
     reset_work := b; bus := bus p |}.

Definition with_bus (p : pmic_pdphy) (l : list Z) : pmic_pdphy :=
  {| base := base p; regmap := regmap p; vdd_pdphy := vdd_pdphy p;
     reset_work := reset_work p; bus := l |}.

(** The return code of the next call into the environment. *)
Definition bus_ret (p : pmic_pdphy) : Z := hd 0 (bus p).
Definition bus_step (p : pmic_pdphy) : pmic_pdphy := with_bus p (tl (bus p)).

(** ** The monad of driver code *)

Definition M (A : Type) : Type := pmic_pdphy → A * pmic_pdphy * list event.

Global Instance M_ret : MRet M := λ A a p, (a, p, []).

Global Instance M_bind : MBind M := λ A B k m p,
  let '(a, p1, t1) := m p in
  let '(b, p2, t2) := k a p1 in
  (b, p2, t1 ++ t2).

Definition emit (e : event) : M unit := λ p, (tt, p, [e]).

Definition get_base : M Z := λ p, (base p, p, []).

(** Result, final device and events of a run. *)
Definition result {A} (r : A * pmic_pdphy * list event) : A := r.1.1.
Definition final {A} (r : A * pmic_pdphy * list event) : pmic_pdphy := r.1.2.
Definition events {A} (r : A * pmic_pdphy * list event) : list event := r.2.

(** ** The collaborators *)

(** Modelled from the spec: the register interface (the regmap core) is
    missing; it is byte-addressable, each call is atomic, and a call either
    succeeds with 0 or fails with its error code and has no effect.  The
    event records the value as the driver passed it. *)
Definition regmap_write (reg val : Z) : M Z := λ p,
  let r := bus_ret p in
  let p := bus_step p in
  if r =? 0
  then (0, with_regmap p (<[reg := Z.land val 0xFF]> (regmap p)), [ev_regmap_write reg val 0])
  else (r, p, [ev_regmap_write reg val r]).

(** Modelled from the spec: the single-register read of the register
    interface.  The second component is the value stored through the
    out-pointer; it is meaningful only when the call returns 0. *)
Definition regmap_read (reg : Z) : M (Z * Z) := λ p,
  let r := bus_ret p in
  let p := bus_step p in
  if r =? 0
  then ((0, reg_get p reg), p, [ev_regmap_read reg 0])
  else ((r, 0), p, [ev_regmap_read reg r]).

(** The registers [reg], [reg + 1], ... after a bulk write of [data]. *)
Fixpoint store_bytes (reg : Z) (data : list Z) (m : gmap Z Z) : gmap Z Z :=
  match data with
  | [] => m
  | b :: rest => store_bytes (reg + 1) rest (<[reg := Z.land b 0xFF]> m)
  end.

(** Modelled from the spec: the bulk write of the register interface, one
    call for the whole block. *)
Definition regmap_bulk_write (reg : Z) (data : list Z) : M Z := λ p,
  let r := bus_ret p in
  let p := bus_step p in
  if r =? 0
  then (0, with_regmap p (store_bytes reg data (regmap p)), [ev_regmap_bulk_write reg data 0])
  else (r, p, [ev_regmap_bulk_write reg data r]).

(** The contents of the [count] registers from [reg] on. *)
Fixpoint load_bytes (m : gmap Z Z) (reg : Z) (count : nat) : list Z :=
  match count with
  | O => []
  | S n => reg_val m reg :: load_bytes m (reg + 1) n
  end.

(** Modelled from the spec: the bulk read of the register interface, one
    call for the whole block. *)
Definition regmap_bulk_read (reg count : Z) : M (Z * list Z) := λ p,
  let r := bus_ret p in
  let p := bus_step p in
  if r =? 0
  then ((0, load_bytes (regmap p) reg (Z.to_nat count)), p, [ev_regmap_bulk_read reg count 0])
  else ((r, []), p, [ev_regmap_bulk_read reg count r]).

(** Modelled from the spec: the read-modify-write of the register
    interface, one atomic call that replaces the bits under [mask] by those
    of [val] and keeps the others. *)
Definition regmap_update_bits (reg mask val : Z) : M Z := λ p,
  let r := bus_ret p in
  let p := bus_step p in
  if r =? 0
  then
    let orig := reg_get p reg in
    let tmp := Z.lor (Z.land orig (u32_not mask)) (Z.land val mask) in
    (0, with_regmap p (<[reg := Z.land tmp 0xFF]> (regmap p)),
     [ev_regmap_update_bits reg mask val 0])
  else (r, p, [ev_regmap_update_bits reg mask val r]).

(** Modelled from the spec: the regulator framework is missing; powering
    the supply on can fail, releasing it cannot. *)
Definition regulator_enable : M Z := λ p,
  let r := bus_ret p in
  let p := bus_step p in
  if r =? 0
  then (0, with_vdd p (S (vdd_pdphy p)), [ev_regulator_enable 0])
  else (r, p, [ev_regulator_enable r]).

(** Modelled from the spec: releasing the supply; the driver does not look
    at the outcome. *)
Definition regulator_disable : M unit := λ p,
  (tt, with_vdd p (Nat.pred (vdd_pdphy p)), [ev_regulator_disable]).

(** Modelled from the spec: the transaction guard, the two log levels the
    driver uses, and the settle delay; they act on nothing the driver can
    observe and are recorded as events. *)
Definition spin_lock_irqsave : M unit := emit ev_spin_lock_irqsave.
Definition spin_unlock_irqrestore : M unit := emit ev_spin_unlock_irqrestore.
Definition dev_err (msg : string) : M unit := emit (ev_log LOG_ERR msg).
Definition dev_dbg (msg : string) : M unit := emit (ev_log LOG_DBG msg).
Definition dev_vdbg (msg : string) : M unit := emit (ev_log LOG_VDBG msg).
Definition usleep_range (lo hi : Z) : M unit := emit (ev_usleep_range lo hi).

(** Modelled from the spec: the work queue is missing; queueing the
    hard-reset work defers it to a separate execution context. *)
Definition schedule_work : M unit := λ p,
  (tt, with_reset_work p true, [ev_schedule_work]).

(** Modelled from the spec: the upper protocol port (TCPM) is missing; it
    receives the hard-reset, message-received and transmit-complete
    notifications. *)
Definition tcpm_pd_hard_reset : M unit := emit ev_tcpm_pd_hard_reset.
Definition tcpm_pd_receive (msg : list stack_byte) : M unit :=
  emit (ev_tcpm_pd_receive msg).
Definition tcpm_pd_transmit_complete (st : tcpm_transmit_status) : M unit :=
  emit (ev_tcpm_pd_transmit_complete st).

(** ** The driver *)

(** [ret = m; if (ret) goto done; k] where [done] hands [ret] back. *)
Definition or_done (m : M Z) (k : M Z) : M Z :=
  ret ← m; if ret =? 0 then k else mret ret.

Notation "'check' m ;; k" := (or_done m k)
  (at level 100, m at level 99, k at level 200, only parsing, right associativity).

Definition qcom_pmic_tcpm_pdphy_reset_on : M unit :=
  b ← get_base;
  (* Terminate TX *)
  ret ← regmap_write (b + USB_PDPHY_TX_CONTROL_REG) 0;
  if ret =? 0 then
    ret ← regmap_write (b + USB_PDPHY_FRAME_FILTER_REG) 0;
    if ret =? 0 then mret tt
    else dev_err "pd_reset_on error\n"
  else dev_err "pd_reset_on error\n".

Definition qcom_pmic_tcpm_pdphy_reset_off : M unit :=
  b ← get_base;
  ret ← regmap_write (b + USB_PDPHY_FRAME_FILTER_REG)
          (Z.lor FRAME_FILTER_EN_SOP FRAME_FILTER_EN_HARD_RESET);
  if ret =? 0 then mret tt else dev_err "pd_reset_off error\n".

Definition qcom_pmic_tcpm_pdphy_sig_reset_work : M unit :=
  spin_lock_irqsave;;
  qcom_pmic_tcpm_pdphy_reset_on;;
  qcom_pmic_tcpm_pdphy_reset_off;;
  spin_unlock_irqrestore;;
  tcpm_pd_hard_reset.

Definition qcom_pmic_tcpm_pdphy_clear_tx_control_reg : M Z :=
  b ← get_base;
  (* Clear TX control register *)
  ret ← regmap_write (b + USB_PDPHY_TX_CONTROL_REG) 0;
  (* Perform readback to ensure sufficient delay for command to latch *)
  ret ← (if ret =? 0
         then '(ret, _) ← regmap_read (b + USB_PDPHY_TX_CONTROL_REG); mret ret
         else mret ret);
  (if ret =? 0 then mret tt
   else dev_err "pd_clear_tx_control_reg: clear tx flag\n");;
  mret ret.

Definition qcom_pmic_tcpm_pdphy_pd_transmit_signal
    (type : tcpm_transmit_type) (negotiated_rev : Z) : M Z :=
  b ← get_base;
  spin_lock_irqsave;;
  ret ← (check qcom_pmic_tcpm_pdphy_clear_tx_control_reg;;
         let val := TX_CONTROL_SEND_SIGNAL in
         let val :=
           if negotiated_rev =? PD_REV30
           then Z.lor val (TX_CONTROL_RETRY_COUNT 2)
           else Z.lor val (TX_CONTROL_RETRY_COUNT 3) in
         let val :=
           match type with
           | TCPC_TX_CABLE_RESET | TCPC_TX_HARD_RESET =>
               Z.lor val (TX_CONTROL_FRAME_TYPE 1)
           | _ => val
           end in
         regmap_write (b + USB_PDPHY_TX_CONTROL_REG) val);
  spin_unlock_irqrestore;;
  dev_vdbg "pd_transmit_signal: type %d negotiate_rev %d send %d\n";;
  mret ret.

Definition qcom_pmic_tcpm_pdphy_pd_transmit_payload
    (type : tcpm_transmit_type) (msg : pd_message) (negotiated_rev : Z) : M Z :=
  b ← get_base;
  spin_lock_irqsave;;
  ret ← ('(ret, val) ← regmap_read (b + USB_PDPHY_RX_ACKNOWLEDGE_REG);
         if negb (ret =? 0) then mret ret else
         if negb (val =? 0) then
           dev_err "pd_transmit_payload: RX message pending\n";;
           mret (- EBUSY)
         else
         (* Clear TX control register *)
         check qcom_pmic_tcpm_pdphy_clear_tx_control_reg;;
         let hdr_len := sizeof_header in
         let txbuf_len := u32 (pd_header_cnt_le (header msg) * 4) in
         let txsize_len := u32 (hdr_len + txbuf_len - 1) in
         (* Write message header sizeof(u16) to USB_PDPHY_TX_BUFFER_HDR_REG *)
         check regmap_bulk_write (b + USB_PDPHY_TX_BUFFER_HDR_REG)
                 (header_bytes (header msg));;
         let after_payload :=
           (* Write total length ((header + data) - 1) to USB_PDPHY_TX_SIZE_REG *)
           check regmap_write (b + USB_PDPHY_TX_SIZE_REG) txsize_len;;
           (* Clear TX control register *)
           check qcom_pmic_tcpm_pdphy_clear_tx_control_reg;;
           (* Initiate transmit with retry count as indicated by PD revision *)
           let val := Z.lor (TX_CONTROL_FRAME_TYPE (transmit_type_val type))
                            TX_CONTROL_SEND_MSG in
           let val :=
             if pd_header_rev (header msg) =? PD_REV30
             then Z.lor val (TX_CONTROL_RETRY_COUNT 2)
             else Z.lor val (TX_CONTROL_RETRY_COUNT 3) in
           regmap_write (b + USB_PDPHY_TX_CONTROL_REG) val in
         (* Write payload to USB_PDPHY_TX_BUFFER_DATA_REG for txbuf_len *)
         if txbuf_len =? 0 then after_payload
         else
           check regmap_bulk_write (b + USB_PDPHY_TX_BUFFER_DATA_REG)
                   (take (Z.to_nat txbuf_len) (payload msg));;
           after_payload);
  spin_unlock_irqrestore;;
  (if ret =? 0 then mret tt
   else dev_err "pd_transmit_payload: %d hdr %*ph data %*ph ret %d\n");;
  mret ret.

Definition qcom_pmic_tcpm_pdphy_pd_transmit
    (type : tcpm_transmit_type) (msg : option pd_message) (negotiated_rev : Z) : M Z :=
  ret ← match msg with
        | Some m => qcom_pmic_tcpm_pdphy_pd_transmit_payload type m negotiated_rev
        | None => qcom_pmic_tcpm_pdphy_pd_transmit_signal type negotiated_rev
        end;
  (if ret =? 0 then mret tt else dev_dbg "pd_transmit: type %x result %d\n");;
  mret ret.

(** [struct pd_message msg] on the stack of [pd_receive], before anything
    has been stored in it. *)
Definition uninit_msg : list stack_byte :=
  replicate (Z.to_nat sizeof_pd_message) None.

(** The effect of a bulk read of [data] into the head of the buffer. *)
Definition fill (buf : list stack_byte) (data : list Z) : list stack_byte :=
  (Some <$> data) ++ drop (length data) buf.

Definition qcom_pmic_tcpm_pdphy_pd_receive : M unit :=
  b ← get_base;
  let msg := uninit_msg in
  spin_lock_irqsave;;
  '(ret, size, msg) ←
    ('(ret, size) ← regmap_read (b + USB_PDPHY_RX_SIZE_REG);
     if negb (ret =? 0) then mret (ret, size, msg) else
     (* If we received a subsequent RX sig this value can be zero *)
     if (size <? 1) || (size >? sizeof_payload) then
       dev_dbg "pd_receive: invalid size %d\n";;
       mret (ret, size, msg)
     else
     let size := u32 (size + 1) in
     '(ret, rx_status) ← regmap_read (b + USB_PDPHY_RX_STATUS_REG);
     if negb (ret =? 0) then mret (ret, size, msg) else
     '(ret, data) ← regmap_bulk_read (b + USB_PDPHY_RX_BUFFER_REG) size;
     if negb (ret =? 0) then mret (ret, size, msg) else
     let msg := fill msg data in
     (* Return ownership of RX buffer to hardware *)
     ret ← regmap_write (b + USB_PDPHY_RX_ACKNOWLEDGE_REG) 0;
     mret (ret, size, msg));
  spin_unlock_irqrestore;;
  if ret =? 0 then
    dev_vdbg "pd_receive: handing %d bytes to tcpm\n";;
    tcpm_pd_receive msg
  else mret tt.

Definition qcom_pmic_tcpm_pdphy_isr (virq : Z) : M Z :=
  (if virq =? PMIC_PDPHY_SIG_TX_IRQ then dev_err "isr: tx_sig\n"
   else if virq =? PMIC_PDPHY_SIG_RX_IRQ then schedule_work
   else if virq =? PMIC_PDPHY_MSG_TX_IRQ then
     tcpm_pd_transmit_complete TCPC_TX_SUCCESS
   else if virq =? PMIC_PDPHY_MSG_RX_IRQ then qcom_pmic_tcpm_pdphy_pd_receive
   else if virq =? PMIC_PDPHY_MSG_TX_FAIL_IRQ then
     tcpm_pd_transmit_complete TCPC_TX_FAILED
   else if virq =? PMIC_PDPHY_MSG_TX_DISCARD_IRQ then
     tcpm_pd_transmit_complete TCPC_TX_DISCARDED
   else mret tt);;
  mret IRQ_HANDLED.

(** Modelled from the spec: the worker of the work queue, which runs the
    queued work item outside the interrupt path; the item is bound to
    [qcom_pmic_tcpm_pdphy_sig_reset_work] by [INIT_WORK] in probe. *)
Definition run_reset_work : M unit := λ p,
  if reset_work p
  then qcom_pmic_tcpm_pdphy_sig_reset_work (with_reset_work p false)
  else (tt, p, []).

Definition qcom_pmic_tcpm_pdphy_set_pd_rx (on : bool) : M Z :=
  b ← get_base;
  spin_lock_irqsave;;
  ret ← regmap_write (b + USB_PDPHY_RX_ACKNOWLEDGE_REG) (bool_to_Z (negb on));
  spin_unlock_irqrestore;;
  dev_dbg "set_pd_rx: %s\n";;
  mret ret.

Definition qcom_pmic_tcpm_pdphy_set_roles
    (data_role_host power_role_src : bool) : M Z :=
  b ← get_base;
  spin_lock_irqsave;;
  ret ← regmap_update_bits (b + USB_PDPHY_MSG_CONFIG_REG)
          (Z.lor MSG_CONFIG_PORT_DATA_ROLE MSG_CONFIG_PORT_POWER_ROLE)
          (Z.lor (Z.shiftl (bool_to_Z data_role_host) 3)
                 (Z.shiftl (bool_to_Z power_role_src) 2));
  spin_unlock_irqrestore;;
  dev_dbg "pdphy_set_roles: data_role_host=%d power_role_src=%d\n";;
  mret ret.

Definition qcom_pmic_tcpm_pdphy_enable : M Z :=
  b ← get_base;
  ret ← regulator_enable;
  if negb (ret =? 0) then mret ret else
  ret ← ((* PD 2.0, DR=TYPEC_DEVICE, PR=TYPEC_SINK *)
         check regmap_update_bits (b + USB_PDPHY_MSG_CONFIG_REG)
                 MSG_CONFIG_SPEC_REV_MASK PD_REV20;;
         check regmap_write (b + USB_PDPHY_EN_CONTROL_REG) 0;;
         ret ← regmap_write (b + USB_PDPHY_EN_CONTROL_REG) CONTROL_ENABLE;
         if negb (ret =? 0) then mret ret else
         qcom_pmic_tcpm_pdphy_reset_off;;
         mret ret);
  (if ret =? 0 then mret tt
   else regulator_disable;; dev_err "pdphy_enable fail %d\n");;
  mret ret.

Definition qcom_pmic_tcpm_pdphy_disable : M Z :=
  b ← get_base;
  qcom_pmic_tcpm_pdphy_reset_on;;
  ret ← regmap_write (b + USB_PDPHY_EN_CONTROL_REG) 0;
  regulator_disable;;
  mret ret.

Definition pmic_pdphy_reset : M Z :=
  ret ← qcom_pmic_tcpm_pdphy_disable;
  if negb (ret =? 0) then mret ret else
  usleep_range 400 500;;
  qcom_pmic_tcpm_pdphy_enable.

(** A device fresh from probe, with the register block at [0x1700]. *)
Definition dev0 (rets : list Z) (regs : gmap Z Z) : pmic_pdphy :=
  {| base := 0x1700; regmap := regs; vdd_pdphy := 0;
     reset_work := false; bus := rets |}.

(** ** Reading the events of a run *)

Definition is_write_to (reg : Z) (e : event) : bool :=
  match e with
  | ev_regmap_write reg' _ _ => reg' =? reg
  | _ => false
  end.

Definition is_regmap_write (e : event) : bool :=
  match e with
  | ev_regmap_write _ _ _ | ev_regmap_bulk_write _ _ _
  | ev_regmap_update_bits _ _ _ _ => true
  | _ => false
  end.

Definition is_err_log (msg : string) (e : event) : bool :=
  match e with
  | ev_log LOG_ERR msg' => bool_decide (msg' = msg)
  | _ => false
  end.

Definition is_hard_reset (e : event) : bool :=
  match e with
  | ev_tcpm_pd_hard_reset => true
  | _ => false
  end.

Definition is_guard (e : event) : bool :=
  match e with
  | ev_spin_lock_irqsave | ev_spin_unlock_irqrestore => true
  | _ => false
  end.

Definition is_receive (e : event) : bool :=
  match e with
  | ev_tcpm_pd_receive _ => true
  | _ => false
  end.

Definition is_regulator_disable (e : event) : bool :=
  match e with
  | ev_regulator_disable => true
  | _ => false
  end.

(** A write to [reg] was attempted. *)
Definition attempted (reg : Z) (evs : list event) : bool :=
  existsb (is_write_to reg) evs.

(** The error [msg] was logged. *)
Definition logged (msg : string) (evs : list event) : bool :=
  existsb (is_err_log msg) evs.

Definition count_ev (f : event → bool) (evs : list event) : nat :=
  length (List.filter f evs).

(** The values stored in [reg] by the single-register writes that
    succeeded, oldest first. *)
Fixpoint written_to (reg : Z) (evs : list event) : list Z :=
  match evs with
  | [] => []
  | ev_regmap_write reg' val ret :: rest =>
      if (reg' =? reg) && (ret =? 0)
      then val :: written_to reg rest
      else written_to reg rest
  | _ :: rest => written_to reg rest
  end.

(** The retry-count field of a TX control value (bits 6:5), and whether the
    value starts a transmission (send-signal or send-message bit). *)
Definition tx_control_retry_count (val : Z) : Z := Z.land (Z.shiftr val 5) 0x3.

Definition starts_transmission (val : Z) : bool :=
  negb (Z.land val (Z.lor TX_CONTROL_SEND_SIGNAL TX_CONTROL_SEND_MSG) =? 0).

(** The retry counts of the transmissions started through the TX control
    register [tx_control]. *)
Definition retry_counts_written (tx_control : Z) (evs : list event) : list Z :=
  map tx_control_retry_count
    (List.filter starts_transmission (written_to tx_control evs)).

(** The next [n] calls into the environment succeed. *)
Definition bus_ok (n : nat) (p : pmic_pdphy) : bool :=
  forallb (Z.eqb 0) (take n (bus p)).

(** The message-config register after a successful [regmap_update_bits] of
    the two role bits. *)
Definition roles_merged (old : Z) (data_role_host power_role_src : bool) : Z :=
  Z.land
    (Z.lor
       (Z.land old
          (u32_not (Z.lor MSG_CONFIG_PORT_DATA_ROLE MSG_CONFIG_PORT_POWER_ROLE)))
       (Z.land
          (Z.lor (Z.shiftl (bool_to_Z data_role_host) 3)
                 (Z.shiftl (bool_to_Z power_role_src) 2))
          (Z.lor MSG_CONFIG_PORT_DATA_ROLE MSG_CONFIG_PORT_POWER_ROLE)))
    0xFF.

(** ** Sample devices and messages *)

(** The first write of [resetOn] fails: the bus answers [-EIO]. *)
Definition dev_first_write_fails : pmic_pdphy := dev0 [-5] ∅.

(** The supply comes up, the three register steps of [enable] succeed, and
    the frame-filter write of [resetOff] fails with [-EIO]. *)
Definition dev_reset_off_fails : pmic_pdphy := dev0 [0; 0; 0; 0; -5] ∅.

(** The supply comes up, the revision field is written, and the first
    write to the PHY-enable register fails. *)
Definition dev_enable_write_fails : pmic_pdphy := dev0 [0; 0; -5] ∅.

(** An RX message is pending: the RX-acknowledge register holds 1. *)
Definition dev_rx_pending : pmic_pdphy := dev0 [] {[ 0x174B := 1 ]}.

(** The RX buffer holds a frame of four bytes (size register 3). *)
Definition dev_rx_frame : pmic_pdphy :=
  dev0 [] {[ 0x1748 := 3; 0x1780 := 0x61; 0x1781 := 0x11;
             0x1782 := 0x2C; 0x1783 := 0x91 ]}.

(** The message-config register holds revision 2.0 and both role bits
    clear. *)
Definition dev_msg_config : pmic_pdphy := dev0 [] {[ 0x1740 := 0x01 ]}.

(** A message with two data objects whose header says revision 2.0. *)
Definition msg_rev20 : pd_message :=
  {| header := 0x2041; payload := replicate 28 0xA5 |}.

(** ** Driver entry points outside the register engines *)

(** [qcom_pmic_tcpm_pdphy_remove]: the platform data is the device
    itself. *)
Definition qcom_pmic_tcpm_pdphy_remove : M Z :=
  qcom_pmic_tcpm_pdphy_reset_on;;
  mret 0.

(** [struct pmic_pdphy_irq_data], without the back pointer to the device. *)
Record pmic_pdphy_irq_data : Type := {
  virq : Z;
  irq : Z
}.

(** [qcom_pmic_tcpm_pdphy_init]: the port handle is implicit in the
    notifications.  The second component of the result lists the interrupt
    lines handed to [enable_irq], in call order; [irq_data] is the array
    that probe filled, [nr_irqs] its length. *)
Definition qcom_pmic_tcpm_pdphy_init
    (nr_irqs : nat) (irq_data : list pmic_pdphy_irq_data) : M (Z * list Z) :=
  ret ← pmic_pdphy_reset;
  if negb (ret =? 0) then mret (ret, [])
  else mret (0, irq <$> take nr_irqs irq_data).

(** ** More ways of reading a run *)

(** The frame-type field of a TX control value (bits 4:2). *)
Definition tx_control_frame_type (val : Z) : Z := Z.land (Z.shiftr val 2) 0x7.

Definition is_bus_access (e : event) : bool :=
  match e with
  | ev_regmap_write _ _ _ | ev_regmap_read _ _ | ev_regmap_bulk_write _ _ _
  | ev_regmap_bulk_read _ _ _ | ev_regmap_update_bits _ _ _ _ => true
  | _ => false
  end.

Definition is_notification (e : event) : bool :=
  match e with
  | ev_tcpm_pd_hard_reset | ev_tcpm_pd_receive _
  | ev_tcpm_pd_transmit_complete _ => true
  | _ => false
  end.

(** Where a run stands with the guard: not taken yet, held, or released
    for good. *)
Inductive guard_phase : Type :=
  | guard_untaken
  | guard_held
  | guard_released.

Definition is_held (ph : guard_phase) : bool :=
  match ph with
  | guard_held => true
  | _ => false
  end.

Definition is_untaken (ph : guard_phase) : bool :=
  match ph with
  | guard_untaken => true
  | _ => false
  end.

(** The guard discipline of a run that is in phase [ph]: the guard is
    taken at most once, and only when it was never taken before; it is
    released only when held, never retaken after its release, and free at
    the end; registers are accessed only with the guard held, so all
    register accesses lie in the one section between taking and releasing;
    the upper port is notified only with the guard free. *)
Fixpoint guard_once (ph : guard_phase) (evs : list event) : bool :=
  match evs with
  | [] => negb (is_held ph)
  | ev_spin_lock_irqsave :: rest => is_untaken ph && guard_once guard_held rest
  | ev_spin_unlock_irqrestore :: rest =>
      is_held ph && guard_once guard_released rest
  | e :: rest =>
      (if is_bus_access e then is_held ph else true)
      && (if is_notification e then negb (is_held ph) else true)
      && guard_once ph rest
  end.

Definition is_lock (e : event) : bool :=
  match e with
  | ev_spin_lock_irqsave => true
  | _ => false
  end.

Definition is_unlock (e : event) : bool :=
  match e with
  | ev_spin_unlock_irqrestore => true
  | _ => false
  end.

(** A run with exactly one guarded section that obeys the discipline. *)
Definition one_guarded_section (evs : list event) : bool :=
  guard_once guard_untaken evs
  && (count_ev is_lock evs =? 1)%nat
  && (count_ev is_unlock evs =? 1)%nat.

(** The return code of a call into the register bus. *)
Definition bus_ret_of (e : event) : option Z :=
  match e with
  | ev_regmap_write _ _ r | ev_regmap_read _ r | ev_regmap_bulk_write _ _ r
  | ev_regmap_bulk_read _ _ r | ev_regmap_update_bits _ _ _ r => Some r
  | _ => None
  end.

(** Some call into the register bus failed. *)
Definition bus_failed (evs : list event) : bool :=
  existsb (λ e, match bus_ret_of e with
                | Some r => negb (r =? 0)
                | None => false
                end) evs.


Definition is_read_of (reg : Z) (e : event) : bool :=
  match e with
  | ev_regmap_read reg' _ => reg' =? reg
  | _ => false
  end.

(** A bulk read from [reg] that succeeded. *)
Definition is_bulk_read_ok (reg : Z) (e : event) : bool :=
  match e with
  | ev_regmap_bulk_read reg' _ r => (reg' =? reg) && (r =? 0)
  | _ => false
  end.

(** The size that the RX size register reports is a valid frame size. *)
Definition rx_size_valid (size : Z) : bool :=
  negb ((size <? 1) || (size >? sizeof_payload)).

(** The message-config register after a successful [regmap_update_bits] of
    the revision field to revision 2.0. *)
Definition rev20_merged (old : Z) : Z :=
  Z.land
    (Z.lor (Z.land old (u32_not MSG_CONFIG_SPEC_REV_MASK))
           (Z.land PD_REV20 MSG_CONFIG_SPEC_REV_MASK))
    0xFF.

Definition is_usleep (e : event) : bool :=
  match e with
  | ev_usleep_range _ _ => true
  | _ => false
  end.

Definition is_regulator_enable (e : event) : bool :=
  match e with
  | ev_regulator_enable _ => true
  | _ => false
  end.

(** ** More sample devices *)

(** Registers already written by earlier traffic. *)
Definition dev_busy_regs : pmic_pdphy :=
  dev0 [] {[ 0x1744 := 0x61; 0x174C := 0x21; 0x1740 := 0x0D; 0x1746 := 1 ]}.

(** [resetOn] works and the frame-filter write of [resetOff] fails. *)
Definition dev_filter_write_fails : pmic_pdphy :=
  dev0 [0; 0; -5] {[ 0x174C := 0x21 ]}.

(** The TX control register still holds an old send command, and the
    third bus call, the write that would start a transmission, fails. *)
Definition dev_armed : pmic_pdphy := dev0 [0; 0; -5] {[ 0x1744 := 0x61 ]}.

(** The supply does not come up. *)
Definition dev_no_supply : pmic_pdphy := dev0 [-22] ∅.

(** A powered device. *)
Definition dev_powered : pmic_pdphy :=
  {| base := 0x1700; regmap := {[ 0x1740 := 0x0E ]}; vdd_pdphy := 1;
     reset_work := false; bus := [] |}.

(** The interrupt lines of the PM8150B as probe binds them, with the Linux
    interrupt numbers 40 to 46. *)
Definition pm8150b_irq_data : list pmic_pdphy_irq_data :=
  [ {| virq := PMIC_PDPHY_SIG_TX_IRQ; irq := 40 |};
    {| virq := PMIC_PDPHY_SIG_RX_IRQ; irq := 41 |};
    {| virq := PMIC_PDPHY_MSG_TX_IRQ; irq := 42 |};
    {| virq := PMIC_PDPHY_MSG_RX_IRQ; irq := 43 |};
    {| virq := PMIC_PDPHY_MSG_TX_FAIL_IRQ; irq := 44 |};
    {| virq := PMIC_PDPHY_MSG_TX_DISCARD_IRQ; irq := 45 |};
    {| virq := PMIC_PDPHY_MSG_RX_DISCARD_IRQ; irq := 46 |} ].

(** ** Symbolic execution *)

(** Unfold the monad and the device accessors. *)
Ltac unfold_monad :=
  cbv beta iota zeta delta
    [or_done get_base emit mbind mret M_bind M_ret result final events
     bus_ret bus_step with_bus with_regmap reg_get].

Ltac simpl_model :=
  cbn [fst snd app hd tl negb bus base regmap vdd_pdphy reset_work Z.eqb].

(** Split on the outcome of the next call into the environment, unless it
    is known already. *)
Ltac split_next :=
  match goal with
  | H : ?c = _ |- context [if ?c then _ else _] => rewrite H
  | H : ?c = _ |- context [if negb ?c then _ else _] => rewrite H
  | |- context [if negb ?c then _ else _] => destruct c eqn:?
  | |- context [if ?c then _ else _] => destruct c eqn:?
  end.

(** Turn the recorded outcomes into equations on the return codes. *)
Ltac outcomes :=
  repeat match goal with
  | H : (_ =? _) = true |- _ => apply Z.eqb_eq in H
  | H : (_ =? _) = false |- _ => apply Z.eqb_neq in H
  end.

(** Use the recorded outcomes in the goal. *)
Ltac use_outcomes :=
  repeat match goal with
  | H : ?c = _ |- context [?c] => rewrite H
  end.

(** Run the code along every path; the driver functions and the
    collaborators they call have been unfolded by the caller. *)
Ltac exec := unfold_monad; simpl_model; repeat (split_next; simpl_model).

(** ** Arithmetic *)

Lemma Z_add_eqb_cancel (b x y : Z) : (b + x =? b + y) = (x =? y).
Proof.
  destruct (Z.eqb_spec x y) as [->|Hne].
  - apply Z.eqb_refl.
  - apply Z.eqb_neq. lia.
Qed.

Lemma testbit_byte_cases (i : Z) :
  0 ≤ i < 8 → i = 0 ∨ i = 1 ∨ i = 2 ∨ i = 3 ∨ i = 4 ∨ i = 5 ∨ i = 6 ∨ i = 7.
Proof. lia. Qed.

(** The object count of a header lies between 0 and 7. *)
Lemma pd_header_cnt_range (hdr : Z) : 0 ≤ pd_header_cnt_le hdr ≤ 7.
Proof.
  unfold pd_header_cnt_le, pd_header_cnt, PD_HEADER_CNT_MASK.
  pose proof (Z.land_ones (Z.shiftr hdr PD_HEADER_CNT_SHIFT) 3) as Hm.
  change (Z.ones 3) with 7 in Hm. change (2 ^ 3) with 8 in Hm.
  rewrite Hm by lia.
  pose proof (Z.mod_pos_bound (Z.shiftr hdr PD_HEADER_CNT_SHIFT) 8). lia.
Qed.

(** The arithmetic on [txsize_len] never wraps. *)
Lemma txsize_len_no_wrap (hdr : Z) :
  u32 (sizeof_header + u32 (pd_header_cnt_le hdr * 4) - 1) =
    (2 + 4 * pd_header_cnt_le hdr) - 1.
Proof.
  pose proof (pd_header_cnt_range hdr) as Hc.
  unfold u32, sizeof_header. change (2 ^ 32) with 4294967296.
  rewrite (Z.mod_small (pd_header_cnt_le hdr * 4)) by lia.
  rewrite Z.mod_small by lia. lia.
Qed.

Lemma bus_ok_S (n : nat) (p : pmic_pdphy) :
  bus_ok (S n) p = true → bus_ret p = 0 ∧ bus_ok n (bus_step p) = true.
Proof.
  unfold bus_ok, bus_ret, bus_step. cbn [bus with_bus].
  destruct (bus p) as [|r rest]; cbn [take forallb hd tl].
  - destruct n; auto.
  - intros [Hr Hrest]%andb_prop. apply Z.eqb_eq in Hr. auto.
Qed.

Lemma load_bytes_length (m : gmap Z Z) (reg : Z) (n : nat) :
  length (load_bytes m reg n) = n.
Proof.
  revert reg. induction n as [|n IH]; intros reg; cbn; [|rewrite IH]; reflexivity.
Qed.

Lemma fill_take (buf : list stack_byte) (data : list Z) :
  take (length data) (fill buf data) = Some <$> data.
Proof.
  unfold fill. rewrite take_app_le by (rewrite length_fmap; lia).
  apply take_ge. rewrite length_fmap. lia.
Qed.

Lemma fill_length (buf : list stack_byte) (data : list Z) :
  (length data ≤ length buf)%nat → length (fill buf data) = length buf.
Proof.
  intros Hle. unfold fill. rewrite length_app, length_fmap, length_drop. lia.
Qed.

Lemma roles_merged_testbit (old : Z) (dr pr : bool) (i : Z) :
  0 ≤ i < 8 →
  Z.testbit (roles_merged old dr pr) i =
    if i =? 3 then dr else if i =? 2 then pr else Z.testbit old i.
Proof.
  intros Hi. unfold roles_merged.
  rewrite !Z.land_spec, !Z.lor_spec, !Z.land_spec.
  destruct (testbit_byte_cases i Hi) as [->|[->|[->|[->|[->|[->|[->| ->]]]]]]];
    destruct dr, pr; destruct (Z.testbit old _); reflexivity.
Qed.

(** ** The reset controller *)

(** What [resetOn] does on the bus, for every behaviour of the bus. *)
Lemma reset_on_events (p : pmic_pdphy) :
  events (qcom_pmic_tcpm_pdphy_reset_on p) =
    let r1 := bus_ret p in
    let r2 := bus_ret (bus_step p) in
    if r1 =? 0 then
      ev_regmap_write (base p + USB_PDPHY_TX_CONTROL_REG) 0 0
      :: ev_regmap_write (base p + USB_PDPHY_FRAME_FILTER_REG) 0 r2
      :: (if r2 =? 0 then [] else [ev_log LOG_ERR "pd_reset_on error\n"])
    else
      [ev_regmap_write (base p + USB_PDPHY_TX_CONTROL_REG) 0 r1;
       ev_log LOG_ERR "pd_reset_on error\n"].
Proof.
  unfold qcom_pmic_tcpm_pdphy_reset_on, regmap_write, dev_err.
  exec; outcomes; congruence.
Qed.

Lemma reset_on_base (p : pmic_pdphy) :
  base (final (qcom_pmic_tcpm_pdphy_reset_on p)) = base p.
Proof.
  unfold qcom_pmic_tcpm_pdphy_reset_on, regmap_write, dev_err.
  exec; reflexivity.
Qed.

(** What [resetOff] does on the bus. *)
Lemma reset_off_events (p : pmic_pdphy) :
  events (qcom_pmic_tcpm_pdphy_reset_off p) =
    let r := bus_ret p in
    ev_regmap_write (base p + USB_PDPHY_FRAME_FILTER_REG)
      (Z.lor FRAME_FILTER_EN_SOP FRAME_FILTER_EN_HARD_RESET) r
    :: (if r =? 0 then [] else [ev_log LOG_ERR "pd_reset_off error\n"]).
Proof.
  unfold qcom_pmic_tcpm_pdphy_reset_off, regmap_write, dev_err.
  exec; outcomes; congruence.
Qed.

Lemma sig_reset_work_events (p : pmic_pdphy) :
  events (qcom_pmic_tcpm_pdphy_sig_reset_work p) =
    ev_spin_lock_irqsave
    :: events (qcom_pmic_tcpm_pdphy_reset_on p)
    ++ events (qcom_pmic_tcpm_pdphy_reset_off
                 (final (qcom_pmic_tcpm_pdphy_reset_on p)))
    ++ [ev_spin_unlock_irqrestore; ev_tcpm_pd_hard_reset].
Proof.
  unfold qcom_pmic_tcpm_pdphy_sig_reset_work, qcom_pmic_tcpm_pdphy_reset_on,
    qcom_pmic_tcpm_pdphy_reset_off, regmap_write, dev_err, spin_lock_irqsave,
    spin_unlock_irqrestore, tcpm_pd_hard_reset.
  exec; reflexivity.
Qed.

(** C3, as stated, fails: when the write of 0 to the TX control register
    fails, [resetOn] logs the failure and returns; the write to the
    frame-filter register is not attempted. *)
Lemma reset_on_failed_first_write_skips_second :
  bus_ret dev_first_write_fails ≠ 0 ∧
  events (qcom_pmic_tcpm_pdphy_reset_on dev_first_write_fails) =
    [ev_regmap_write (0x1700 + USB_PDPHY_TX_CONTROL_REG) 0 (-5);
     ev_log LOG_ERR "pd_reset_on error\n"] ∧
  attempted (0x1700 + USB_PDPHY_FRAME_FILTER_REG)
    (events (qcom_pmic_tcpm_pdphy_reset_on dev_first_write_fails)) = false.
Proof. split; [discriminate | split; reflexivity]. Qed.

(** C3, amended: [resetOn] always attempts the write of 0 to the TX control
    register; it attempts the write of 0 to the frame-filter register
    exactly when the first write succeeded; and it logs an error exactly
    when one of the writes it attempted failed. *)
Theorem reset_on_attempts_and_logs (p : pmic_pdphy) :
  let evs := events (qcom_pmic_tcpm_pdphy_reset_on p) in
  let r1 := bus_ret p in
  let r2 := bus_ret (bus_step p) in
  attempted (base p + USB_PDPHY_TX_CONTROL_REG) evs = true ∧
  attempted (base p + USB_PDPHY_FRAME_FILTER_REG) evs = (r1 =? 0) ∧
  logged "pd_reset_on error\n" evs = negb ((r1 =? 0) && (r2 =? 0)).
Proof.
  intros evs r1 r2. subst evs. rewrite reset_on_events.
  fold r1 r2. cbv zeta.
  destruct (r1 =? 0); [destruct (r2 =? 0)|];
    cbn [attempted logged existsb is_write_to is_err_log app];
    rewrite ?Z_add_eqb_cancel, ?Z.eqb_refl; repeat split; reflexivity.
Qed.

(** C6: the rx-signal interrupt queues the hard-reset work; when the work
    runs, its events are: the guard is taken, then the writes of [resetOn]
    (0 to the TX control register first), then the one write of [resetOff]
    to the frame-filter register, then the guard is released, and last the
    single hard-reset notification.  Nothing between taking and releasing
    the guard is a notification or a guard operation. *)
Theorem hard_reset_work_order (p : pmic_pdphy) :
  let q := final (qcom_pmic_tcpm_pdphy_isr PMIC_PDPHY_SIG_RX_IRQ p) in
  let q0 := with_reset_work q false in
  let t_on := events (qcom_pmic_tcpm_pdphy_reset_on q0) in
  let t_off := events (qcom_pmic_tcpm_pdphy_reset_off
                         (final (qcom_pmic_tcpm_pdphy_reset_on q0))) in
  let evs := events (run_reset_work q) in
  reset_work q = true ∧
  evs = [ev_spin_lock_irqsave] ++ t_on ++ t_off
        ++ [ev_spin_unlock_irqrestore; ev_tcpm_pd_hard_reset] ∧
  attempted (base p + USB_PDPHY_TX_CONTROL_REG) t_on = true ∧
  count_ev is_regmap_write t_off = 1%nat ∧
  attempted (base p + USB_PDPHY_FRAME_FILTER_REG) t_off = true ∧
  forallb (λ e, negb (is_hard_reset e) && negb (is_guard e)) (t_on ++ t_off)
    = true ∧
  count_ev is_hard_reset evs = 1%nat.
Proof.
  intros q q0 t_on t_off evs.
  assert (Hq : reset_work q = true) by reflexivity.
  assert (Hevs : evs = [ev_spin_lock_irqsave] ++ t_on ++ t_off
        ++ [ev_spin_unlock_irqrestore; ev_tcpm_pd_hard_reset]).
  { subst evs. unfold run_reset_work. rewrite Hq. apply sig_reset_work_events. }
  split; [exact Hq|]. split; [exact Hevs|].
  rewrite Hevs. clear Hevs evs.
  subst t_on t_off. rewrite reset_off_events, reset_on_events. cbv zeta.
  rewrite reset_on_base. change (base q0) with (base p).
  generalize (bus_ret (final (qcom_pmic_tcpm_pdphy_reset_on q0))).
  generalize (bus_ret (bus_step q0)). generalize (bus_ret q0).
  intros r1 r2 r3.
  destruct (r1 =? 0), (r2 =? 0), (r3 =? 0);
    cbn [attempted existsb is_write_to app count_ev List.filter length forallb
         is_regmap_write is_hard_reset is_guard negb andb];
    rewrite ?Z_add_eqb_cancel, ?Z.eqb_refl; repeat split; reflexivity.
Qed.

(** ** The transmit engine *)

(** C1, as stated, fails for [transmitPayload]: with a negotiated revision
    of 3.0 and a message whose header says revision 2.0 the call succeeds
    and the retry count written is 3, not 2. *)
Lemma transmit_payload_ignores_negotiated_rev :
  pd_header_rev (header msg_rev20) = PD_REV20 ∧
  result (qcom_pmic_tcpm_pdphy_pd_transmit_payload
            TCPC_TX_SOP msg_rev20 PD_REV30 (dev0 [] ∅)) = 0 ∧
  retry_counts_written (0x1700 + USB_PDPHY_TX_CONTROL_REG)
    (events (qcom_pmic_tcpm_pdphy_pd_transmit_payload
               TCPC_TX_SOP msg_rev20 PD_REV30 (dev0 [] ∅))) = [3].
Proof. vm_compute. repeat split; reflexivity. Qed.

(** C1, amended: a transmission that succeeds writes exactly one retry
    count to the TX control register, and one that fails writes none.  In
    [transmitSignal] the count is 2 when the negotiated revision is 3.0 and
    3 otherwise; in [transmitPayload] it is 2 when the revision field of
    the message header is 3.0 and 3 otherwise, whatever the negotiated
    revision. *)
Theorem retry_count_by_revision
    (type : tcpm_transmit_type) (msg : pd_message) (negotiated_rev : Z)
    (p : pmic_pdphy) :
  let rs := qcom_pmic_tcpm_pdphy_pd_transmit_signal type negotiated_rev p in
  let rp := qcom_pmic_tcpm_pdphy_pd_transmit_payload type msg negotiated_rev p in
  let tx_control := base p + USB_PDPHY_TX_CONTROL_REG in
  retry_counts_written tx_control (events rs) =
    (if result rs =? 0
     then [if negotiated_rev =? PD_REV30 then 2 else 3] else []) ∧
  retry_counts_written tx_control (events rp) =
    (if result rp =? 0
     then [if pd_header_rev (header msg) =? PD_REV30 then 2 else 3] else []).
Proof.
  cbv zeta. split.
  - unfold qcom_pmic_tcpm_pdphy_pd_transmit_signal,
      qcom_pmic_tcpm_pdphy_clear_tx_control_reg, regmap_write, regmap_read,
      spin_lock_irqsave, spin_unlock_irqrestore, dev_err, dev_vdbg.
    destruct type; exec.
    all: unfold retry_counts_written; cbn [written_to];
      rewrite ?Z_add_eqb_cancel; use_outcomes; reflexivity.
  - unfold qcom_pmic_tcpm_pdphy_pd_transmit_payload,
      qcom_pmic_tcpm_pdphy_clear_tx_control_reg, regmap_bulk_write, regmap_write,
      regmap_read, spin_lock_irqsave, spin_unlock_irqrestore, dev_err.
    destruct type; exec.
    all: try (outcomes; discriminate).
    all: unfold retry_counts_written; cbn [written_to];
      rewrite ?Z_add_eqb_cancel; use_outcomes; reflexivity.
Qed.

(** The end-to-end scenario of the specification: a message with two
    objects at revision 2.0 goes out as header, 8 bytes of payload, size 9
    and a control value with retry count 3 and the frame type of the
    request. *)
Example transmit_two_objects_rev20 :
  qcom_pmic_tcpm_pdphy_pd_transmit TCPC_TX_SOP (Some msg_rev20) PD_REV20
    (dev0 [] ∅)
  = (0,
     dev0 [] {[ 0x1744 := 0x61; 0x1742 := 9; 0x1760 := 0x41; 0x1761 := 0x20;
                0x1762 := 0xA5; 0x1763 := 0xA5; 0x1764 := 0xA5; 0x1765 := 0xA5;
                0x1766 := 0xA5; 0x1767 := 0xA5; 0x1768 := 0xA5; 0x1769 := 0xA5 ]},
     [ev_spin_lock_irqsave;
      ev_regmap_read 0x174B 0;
      ev_regmap_write 0x1744 0 0;
      ev_regmap_read 0x1744 0;
      ev_regmap_bulk_write 0x1760 [0x41; 0x20] 0;
      ev_regmap_bulk_write 0x1762 (replicate 8 0xA5) 0;
      ev_regmap_write 0x1742 9 0;
      ev_regmap_write 0x1744 0 0;
      ev_regmap_read 0x1744 0;
      ev_regmap_write 0x1744 0x61 0;
      ev_spin_unlock_irqrestore]).
Proof. vm_compute. reflexivity. Qed.

(** A hard-reset signal at revision 3.0: retry count 2, frame-type bit set. *)
Example transmit_hard_reset_signal_rev30 :
  events (qcom_pmic_tcpm_pdphy_pd_transmit TCPC_TX_HARD_RESET None PD_REV30
            (dev0 [] ∅))
  = [ev_spin_lock_irqsave;
     ev_regmap_write 0x1744 0 0;
     ev_regmap_read 0x1744 0;
     ev_regmap_write 0x1744 0x46 0;
     ev_spin_unlock_irqrestore;
     ev_log LOG_VDBG "pd_transmit_signal: type %d negotiate_rev %d send %d\n"].
Proof. reflexivity. Qed.

(** C4: when the read of the RX-acknowledge register succeeds and returns a
    non-zero value, [transmitPayload] returns [-EBUSY]; it makes no write
    call on the bus and the register contents are what they were. *)
Theorem transmit_payload_busy
    (type : tcpm_transmit_type) (msg : pd_message) (negotiated_rev : Z)
    (p : pmic_pdphy)
    (Hread : bus_ret p = 0)
    (Hpending : reg_get p (base p + USB_PDPHY_RX_ACKNOWLEDGE_REG) ≠ 0) :
  let r := qcom_pmic_tcpm_pdphy_pd_transmit_payload type msg negotiated_rev p in
  result r = - EBUSY ∧
  regmap (final r) = regmap p ∧
  forallb (λ e, negb (is_regmap_write e)) (events r) = true ∧
  events r =
    [ev_spin_lock_irqsave;
     ev_regmap_read (base p + USB_PDPHY_RX_ACKNOWLEDGE_REG) 0;
     ev_log LOG_ERR "pd_transmit_payload: RX message pending\n";
     ev_spin_unlock_irqrestore;
     ev_log LOG_ERR "pd_transmit_payload: %d hdr %*ph data %*ph ret %d\n"].
Proof.
  apply Z.eqb_eq in Hread. apply Z.eqb_neq in Hpending.
  revert Hread Hpending. unfold qcom_pmic_tcpm_pdphy_pd_transmit_payload,
    qcom_pmic_tcpm_pdphy_clear_tx_control_reg, regmap_bulk_write, regmap_write,
    regmap_read, spin_lock_irqsave, spin_unlock_irqrestore, dev_err. unfold_monad.
  intros Hread Hpending.
  simpl_model. rewrite Hread. simpl_model. rewrite Hpending. simpl_model.
  change (- EBUSY =? 0) with false. cbv iota.
  repeat split; reflexivity.
Qed.

(** C4 on [dev_rx_pending]: busy, and the registers keep their contents. *)
Lemma transmit_payload_busy_witness :
  result (qcom_pmic_tcpm_pdphy_pd_transmit_payload
            TCPC_TX_SOP msg_rev20 PD_REV20 dev_rx_pending) = - EBUSY ∧
  regmap (final (qcom_pmic_tcpm_pdphy_pd_transmit_payload
                   TCPC_TX_SOP msg_rev20 PD_REV20 dev_rx_pending))
    = regmap dev_rx_pending.
Proof.
  pose proof (transmit_payload_busy TCPC_TX_SOP msg_rev20 PD_REV20 dev_rx_pending)
    as H.
  cbv zeta in H. split; apply H; vm_compute; congruence.
Defined.

(** C7: a call of [transmitPayload] that succeeds stores exactly one value
    in the TX size register, namely (2 + 4 * objectCount) - 1 with the
    object count of the message header; that is 1 for a message without
    objects and 1 + payload length otherwise. *)
Theorem tx_size_is_length_minus_one
    (type : tcpm_transmit_type) (msg : pd_message) (negotiated_rev : Z)
    (p : pmic_pdphy) :
  let r := qcom_pmic_tcpm_pdphy_pd_transmit_payload type msg negotiated_rev p in
  let cnt := pd_header_cnt_le (header msg) in
  let payload_len := 4 * cnt in
  result r = 0 →
  written_to (base p + USB_PDPHY_TX_SIZE_REG) (events r) = [(2 + 4 * cnt) - 1] ∧
  (2 + 4 * cnt) - 1 = (if cnt =? 0 then 1 else 1 + payload_len) ∧
  0 ≤ cnt ≤ 7.
Proof.
  intros r cnt payload_len Hok.
  split; [|split; [|apply pd_header_cnt_range]].
  - subst r cnt. rewrite <- txsize_len_no_wrap.
    revert Hok. unfold qcom_pmic_tcpm_pdphy_pd_transmit_payload,
    qcom_pmic_tcpm_pdphy_clear_tx_control_reg, regmap_bulk_write, regmap_write,
    regmap_read, spin_lock_irqsave, spin_unlock_irqrestore, dev_err. exec; intros Hok.
    all: outcomes; try contradiction; try discriminate.
    all: cbn [written_to]; rewrite ?Z_add_eqb_cancel; reflexivity.
  - subst payload_len. destruct (Z.eqb_spec cnt 0) as [->|]; lia.
Qed.

(** C7 on a message with two objects: the TX size register gets 9. *)
Lemma tx_size_is_length_minus_one_witness :
  written_to (0x1700 + USB_PDPHY_TX_SIZE_REG)
    (events (qcom_pmic_tcpm_pdphy_pd_transmit_payload
               TCPC_TX_SOP msg_rev20 PD_REV20 (dev0 [] ∅))) = [9].
Proof.
  apply (tx_size_is_length_minus_one TCPC_TX_SOP msg_rev20 PD_REV20 (dev0 [] ∅)).
  reflexivity.
Defined.

(** ** The receive engine *)

(** C2 is not what the code does: with the RX size register reading 0 and
    the bus working, [pd_receive] makes no RX-acknowledge write, yet it
    calls [tcpm_pd_receive] once, handing over the message buffer of which
    no byte has been written. *)
Theorem receive_size_zero_still_delivers :
  reg_get (dev0 [] ∅) (0x1700 + USB_PDPHY_RX_SIZE_REG) = 0 ∧
  events (qcom_pmic_tcpm_pdphy_pd_receive (dev0 [] ∅)) =
    [ev_spin_lock_irqsave;
     ev_regmap_read (0x1700 + USB_PDPHY_RX_SIZE_REG) 0;
     ev_log LOG_DBG "pd_receive: invalid size %d\n";
     ev_spin_unlock_irqrestore;
     ev_log LOG_VDBG "pd_receive: handing %d bytes to tcpm\n";
     ev_tcpm_pd_receive uninit_msg] ∧
  attempted (0x1700 + USB_PDPHY_RX_ACKNOWLEDGE_REG)
    (events (qcom_pmic_tcpm_pdphy_pd_receive (dev0 [] ∅))) = false ∧
  count_ev is_receive
    (events (qcom_pmic_tcpm_pdphy_pd_receive (dev0 [] ∅))) = 1%nat.
Proof. vm_compute. repeat split; reflexivity. Qed.

(** The same for every size outside [1, 28], on every device on which the
    read of the RX size register succeeds. *)
Lemma receive_invalid_size_events (p : pmic_pdphy) :
  bus_ret p = 0 →
  ¬ (1 ≤ reg_get p (base p + USB_PDPHY_RX_SIZE_REG) ≤ sizeof_payload) →
  events (qcom_pmic_tcpm_pdphy_pd_receive p) =
    [ev_spin_lock_irqsave;
     ev_regmap_read (base p + USB_PDPHY_RX_SIZE_REG) 0;
     ev_log LOG_DBG "pd_receive: invalid size %d\n";
     ev_spin_unlock_irqrestore;
     ev_log LOG_VDBG "pd_receive: handing %d bytes to tcpm\n";
     ev_tcpm_pd_receive uninit_msg].
Proof.
  intros Hread Hsize. apply Z.eqb_eq in Hread.
  assert (Hinv : (reg_get p (base p + USB_PDPHY_RX_SIZE_REG) <? 1)
                 || (reg_get p (base p + USB_PDPHY_RX_SIZE_REG) >? sizeof_payload)
                 = true).
  { apply orb_true_iff. rewrite Z.ltb_lt, Z.gtb_gt. lia. }
  revert Hread Hinv. unfold qcom_pmic_tcpm_pdphy_pd_receive, regmap_read, regmap_bulk_read,
    regmap_write, spin_lock_irqsave, spin_unlock_irqrestore, dev_dbg, dev_vdbg,
    tcpm_pd_receive. unfold_monad. intros Hread Hinv.
  simpl_model. rewrite Hread. simpl_model. rewrite Hinv. reflexivity.
Qed.

(** C5: when the RX size register reads a value in [1, 28] and the four
    register calls succeed, [pd_receive] reads [size + 1] bytes from the
    RX buffer, then writes 0 to the RX-acknowledge register once, releases
    the guard and calls [tcpm_pd_receive] once, with a buffer that starts
    with those [size + 1] bytes. *)
Theorem receive_valid_frame (p : pmic_pdphy) :
  let size := reg_get p (base p + USB_PDPHY_RX_SIZE_REG) in
  let count := Z.to_nat (size + 1) in
  let frame := load_bytes (regmap p) (base p + USB_PDPHY_RX_BUFFER_REG) count in
  let msg := fill uninit_msg frame in
  let r := qcom_pmic_tcpm_pdphy_pd_receive p in
  bus_ok 4 p = true →
  1 ≤ size ≤ sizeof_payload →
  events r =
    [ev_spin_lock_irqsave;
     ev_regmap_read (base p + USB_PDPHY_RX_SIZE_REG) 0;
     ev_regmap_read (base p + USB_PDPHY_RX_STATUS_REG) 0;
     ev_regmap_bulk_read (base p + USB_PDPHY_RX_BUFFER_REG) (size + 1) 0;
     ev_regmap_write (base p + USB_PDPHY_RX_ACKNOWLEDGE_REG) 0 0;
     ev_spin_unlock_irqrestore;
     ev_log LOG_VDBG "pd_receive: handing %d bytes to tcpm\n";
     ev_tcpm_pd_receive msg] ∧
  length frame = count ∧
  take count msg = Some <$> frame ∧
  length msg = Z.to_nat sizeof_pd_message ∧
  reg_get (final r) (base p + USB_PDPHY_RX_ACKNOWLEDGE_REG) = 0.
Proof.
  intros size count frame msg r Hbus Hsize.
  assert (Hlen : length frame = count) by apply load_bytes_length.
  apply bus_ok_S in Hbus as [H1 Hbus]. apply bus_ok_S in Hbus as [H2 Hbus].
  apply bus_ok_S in Hbus as [H3 Hbus]. apply bus_ok_S in Hbus as [H4 _].
  assert (Hvalid : (size <? 1) || (size >? sizeof_payload) = false).
  { apply orb_false_iff. rewrite Z.ltb_ge, Z.gtb_ltb, Z.ltb_ge. lia. }
  assert (Hu : u32 (size + 1) = size + 1).
  { unfold u32. change (2 ^ 32) with 4294967296.
    unfold sizeof_payload, PD_MAX_PAYLOAD in Hsize. apply Z.mod_small. lia. }
  apply Z.eqb_eq in H1, H2, H3, H4.
  split; [|split; [exact Hlen|split; [|split]]].
  - subst r msg frame count size.
    revert H1 H2 H3 H4 Hvalid Hu. unfold qcom_pmic_tcpm_pdphy_pd_receive, regmap_read, regmap_bulk_read,
    regmap_write, spin_lock_irqsave, spin_unlock_irqrestore, dev_dbg, dev_vdbg,
    tcpm_pd_receive. unfold_monad. simpl_model.
    intros H1 H2 H3 H4 Hvalid Hu.
    rewrite H1. simpl_model. rewrite Hvalid. simpl_model.
    rewrite H2. simpl_model. rewrite H3. simpl_model.
    rewrite H4. simpl_model. rewrite Hu. reflexivity.
  - rewrite <- Hlen. apply fill_take.
  - subst msg. rewrite fill_length; [reflexivity|].
    rewrite Hlen. subst count. unfold uninit_msg. rewrite length_replicate.
    unfold sizeof_payload, PD_MAX_PAYLOAD in Hsize.
    change (Z.to_nat sizeof_pd_message) with 30%nat. lia.
  - clear Hlen Hu. subst r msg frame count size.
    revert H1 H2 H3 H4 Hvalid. unfold qcom_pmic_tcpm_pdphy_pd_receive, regmap_read, regmap_bulk_read,
    regmap_write, spin_lock_irqsave, spin_unlock_irqrestore, dev_dbg, dev_vdbg,
    tcpm_pd_receive. unfold_monad. simpl_model.
    intros H1 H2 H3 H4 Hvalid.
    rewrite H1. simpl_model. rewrite Hvalid. simpl_model.
    rewrite H2. simpl_model. rewrite H3. simpl_model.
    rewrite H4. simpl_model.
    unfold reg_val. rewrite lookup_insert_eq. reflexivity.
Qed.

(** C5 on [dev_rx_frame]: four bytes are read, acknowledged and delivered. *)
Lemma receive_valid_frame_witness :
  events (qcom_pmic_tcpm_pdphy_pd_receive dev_rx_frame) =
    [ev_spin_lock_irqsave;
     ev_regmap_read 0x1748 0;
     ev_regmap_read 0x174A 0;
     ev_regmap_bulk_read 0x1780 4 0;
     ev_regmap_write 0x174B 0 0;
     ev_spin_unlock_irqrestore;
     ev_log LOG_VDBG "pd_receive: handing %d bytes to tcpm\n";
     ev_tcpm_pd_receive
       ([Some 0x61; Some 0x11; Some 0x2C; Some 0x91] ++ replicate 26 None)].
Proof.
  refine (proj1 (receive_valid_frame dev_rx_frame _ _)).
  - reflexivity.
  - vm_compute. split; discriminate.
Defined.

(** ** Enabling the PHY *)

(** C8, as stated, fails for [resetOff]: when its write to the frame-filter
    register fails, [enable] logs the failure, leaves the supply on and
    returns success. *)
Lemma enable_ignores_reset_off_failure :
  events (qcom_pmic_tcpm_pdphy_enable dev_reset_off_fails) =
    [ev_regulator_enable 0;
     ev_regmap_update_bits (0x1700 + USB_PDPHY_MSG_CONFIG_REG)
       MSG_CONFIG_SPEC_REV_MASK PD_REV20 0;
     ev_regmap_write (0x1700 + USB_PDPHY_EN_CONTROL_REG) 0 0;
     ev_regmap_write (0x1700 + USB_PDPHY_EN_CONTROL_REG) CONTROL_ENABLE 0;
     ev_regmap_write (0x1700 + USB_PDPHY_FRAME_FILTER_REG)
       (Z.lor FRAME_FILTER_EN_SOP FRAME_FILTER_EN_HARD_RESET) (-5);
     ev_log LOG_ERR "pd_reset_off error\n"] ∧
  result (qcom_pmic_tcpm_pdphy_enable dev_reset_off_fails) = 0 ∧
  vdd_pdphy (final (qcom_pmic_tcpm_pdphy_enable dev_reset_off_fails)) = 1%nat ∧
  count_ev is_regulator_disable
    (events (qcom_pmic_tcpm_pdphy_enable dev_reset_off_fails)) = 0%nat.
Proof. vm_compute. repeat split; reflexivity. Qed.

(** C8, amended: after the supply has been powered on, [enable] returns
    the error of the first failing step among the revision-field write and
    the two writes to the PHY-enable register, and then it has powered the
    supply off again; it returns success exactly when these three steps
    succeeded, and then the supply stays on and [resetOff] has been called.
    The outcome of [resetOff] does not enter. *)
Theorem enable_failure_powers_off (p : pmic_pdphy) :
  let r := qcom_pmic_tcpm_pdphy_enable p in
  let r_rev := bus_ret (bus_step p) in
  let r_zero := bus_ret (bus_step (bus_step p)) in
  let r_set := bus_ret (bus_step (bus_step (bus_step p))) in
  bus_ret p = 0 →
  result r =
    (if r_rev =? 0 then if r_zero =? 0 then r_set else r_zero else r_rev) ∧
  vdd_pdphy (final r) =
    (if result r =? 0 then S (vdd_pdphy p) else vdd_pdphy p) ∧
  count_ev is_regulator_disable (events r) =
    (if result r =? 0 then 0%nat else 1%nat) ∧
  attempted (base p + USB_PDPHY_FRAME_FILTER_REG) (events r) = (result r =? 0).
Proof.
  intros r r_rev r_zero r_set Hon. apply Z.eqb_eq in Hon.
  subst r r_rev r_zero r_set. revert Hon.
  unfold qcom_pmic_tcpm_pdphy_enable, qcom_pmic_tcpm_pdphy_reset_off,
    regulator_enable, regulator_disable, regmap_update_bits, regmap_write,
    dev_err, with_vdd.
  exec; intros Hon; try discriminate.
  all: cbn [count_ev List.filter is_regulator_disable length attempted existsb
            is_write_to Nat.pred];
    rewrite ?Z_add_eqb_cancel; use_outcomes;
    repeat split; try reflexivity; outcomes; congruence.
Qed.

(** C8 on [dev_enable_write_fails]: the error of the failed write comes
    back and the supply is off again. *)
Lemma enable_failure_powers_off_witness :
  result (qcom_pmic_tcpm_pdphy_enable dev_enable_write_fails) = -5 ∧
  vdd_pdphy (final (qcom_pmic_tcpm_pdphy_enable dev_enable_write_fails)) = 0%nat.
Proof.
  pose proof (enable_failure_powers_off dev_enable_write_fails eq_refl)
    as (Hres & Hvdd & _).
  split; [exact Hres | exact Hvdd].
Defined.

(** [disable] releases the supply even when the write to the PHY-enable
    register fails, and a full reset starts from [disable]. *)
Example disable_releases_supply :
  let p := with_vdd (dev0 [0; 0; -5] ∅) 1 in
  result (qcom_pmic_tcpm_pdphy_disable p) = -5 ∧
  vdd_pdphy (final (qcom_pmic_tcpm_pdphy_disable p)) = 0%nat ∧
  result (pmic_pdphy_reset p) = -5.
Proof. vm_compute. repeat split; reflexivity. Qed.

Example reset_enables_phy :
  let r := pmic_pdphy_reset (with_vdd (dev0 [] ∅) 1) in
  result r = 0 ∧
  vdd_pdphy (final r) = 1%nat ∧
  reg_get (final r) (0x1700 + USB_PDPHY_EN_CONTROL_REG) = CONTROL_ENABLE ∧
  reg_get (final r) (0x1700 + USB_PDPHY_FRAME_FILTER_REG) =
    Z.lor FRAME_FILTER_EN_SOP FRAME_FILTER_EN_HARD_RESET ∧
  reg_get (final r) (0x1700 + USB_PDPHY_MSG_CONFIG_REG) = PD_REV20 ∧
  count_ev (λ e, match e with ev_usleep_range 400 500 => true | _ => false end)
    (events r) = 1%nat.
Proof. vm_compute. repeat split; reflexivity. Qed.

(** [setPdRx] writes the negation of [on] to the RX-acknowledge register. *)
Example set_pd_rx_off :
  reg_get (final (qcom_pmic_tcpm_pdphy_set_pd_rx false (dev0 [] ∅)))
    (0x1700 + USB_PDPHY_RX_ACKNOWLEDGE_REG) = 1.
Proof. reflexivity. Qed.

(** ** The interrupt dispatcher *)

(** C9: the interrupt handler does, for each of the seven events, the one
    action of the dispatch table and nothing else: tx-signal logs an
    error; rx-signal queues the hard-reset work; msg-tx, msg-tx-failed and
    msg-tx-discarded each notify one transmit completion with their status;
    msg-rx runs the receive engine; msg-rx-discarded does nothing.  The
    handler always returns [IRQ_HANDLED]. *)
Theorem isr_dispatch (p : pmic_pdphy) :
  qcom_pmic_tcpm_pdphy_isr PMIC_PDPHY_SIG_TX_IRQ p =
    (IRQ_HANDLED, p, [ev_log LOG_ERR "isr: tx_sig\n"]) ∧
  qcom_pmic_tcpm_pdphy_isr PMIC_PDPHY_SIG_RX_IRQ p =
    (IRQ_HANDLED, with_reset_work p true, [ev_schedule_work]) ∧
  qcom_pmic_tcpm_pdphy_isr PMIC_PDPHY_MSG_TX_IRQ p =
    (IRQ_HANDLED, p, [ev_tcpm_pd_transmit_complete TCPC_TX_SUCCESS]) ∧
  qcom_pmic_tcpm_pdphy_isr PMIC_PDPHY_MSG_RX_IRQ p =
    (IRQ_HANDLED, final (qcom_pmic_tcpm_pdphy_pd_receive p),
     events (qcom_pmic_tcpm_pdphy_pd_receive p)) ∧
  qcom_pmic_tcpm_pdphy_isr PMIC_PDPHY_MSG_TX_FAIL_IRQ p =
    (IRQ_HANDLED, p, [ev_tcpm_pd_transmit_complete TCPC_TX_FAILED]) ∧
  qcom_pmic_tcpm_pdphy_isr PMIC_PDPHY_MSG_TX_DISCARD_IRQ p =
    (IRQ_HANDLED, p, [ev_tcpm_pd_transmit_complete TCPC_TX_DISCARDED]) ∧
  qcom_pmic_tcpm_pdphy_isr PMIC_PDPHY_MSG_RX_DISCARD_IRQ p =
    (IRQ_HANDLED, p, []).
Proof.
  repeat split; try reflexivity.
  unfold qcom_pmic_tcpm_pdphy_isr.
  change (PMIC_PDPHY_MSG_RX_IRQ =? PMIC_PDPHY_SIG_TX_IRQ) with false.
  change (PMIC_PDPHY_MSG_RX_IRQ =? PMIC_PDPHY_SIG_RX_IRQ) with false.
  change (PMIC_PDPHY_MSG_RX_IRQ =? PMIC_PDPHY_MSG_TX_IRQ) with false.
  change (PMIC_PDPHY_MSG_RX_IRQ =? PMIC_PDPHY_MSG_RX_IRQ) with true.
  cbv iota. unfold mbind, mret, M_bind, M_ret, final, events.
  destruct (qcom_pmic_tcpm_pdphy_pd_receive p) as [[[] p1] t1].
  cbn [fst snd]. rewrite app_nil_r. reflexivity.
Qed.

(** ** Port roles *)

Lemma set_roles_run (dr pr : bool) (p : pmic_pdphy) :
  let reg := base p + USB_PDPHY_MSG_CONFIG_REG in
  let r := qcom_pmic_tcpm_pdphy_set_roles dr pr p in
  result r = bus_ret p ∧
  regmap (final r) =
    (if bus_ret p =? 0
     then <[reg := roles_merged (reg_get p reg) dr pr]> (regmap p)
     else regmap p) ∧
  events r =
    [ev_spin_lock_irqsave;
     ev_regmap_update_bits reg
       (Z.lor MSG_CONFIG_PORT_DATA_ROLE MSG_CONFIG_PORT_POWER_ROLE)
       (Z.lor (Z.shiftl (bool_to_Z dr) 3) (Z.shiftl (bool_to_Z pr) 2))
       (bus_ret p);
     ev_spin_unlock_irqrestore;
     ev_log LOG_DBG "pdphy_set_roles: data_role_host=%d power_role_src=%d\n"].
Proof.
  cbv zeta. unfold roles_merged.
  unfold qcom_pmic_tcpm_pdphy_set_roles, regmap_update_bits, spin_lock_irqsave,
    spin_unlock_irqrestore, dev_dbg.
  exec; outcomes; repeat split; congruence.
Qed.

(** C10: [setRoles] makes one read-modify-write call on the message-config
    register, inside the guard, with the two role bits as mask and the
    requested roles as value, and returns what that call returns.  When the
    bus call succeeds, [setRoles] returns 0 and bit 3 of the register is
    the requested data role and bit 2 the requested power role; when it
    fails, no register changes.  In every case each other bit of the 8-bit
    register, the protocol-revision field included, and every other
    register keep their values. *)
Theorem set_roles_changes_only_role_bits
    (data_role_host power_role_src : bool) (p : pmic_pdphy) (i : Z) :
  let reg := base p + USB_PDPHY_MSG_CONFIG_REG in
  let r := qcom_pmic_tcpm_pdphy_set_roles data_role_host power_role_src p in
  let old := reg_get p reg in
  let new := reg_get (final r) reg in
  0 ≤ i < 8 →
  (i ≠ 2 → i ≠ 3 → Z.testbit new i = Z.testbit old i) ∧
  (if result r =? 0
   then Z.testbit new 3 = data_role_host ∧ Z.testbit new 2 = power_role_src
   else regmap (final r) = regmap p) ∧
  Z.land new MSG_CONFIG_SPEC_REV_MASK = Z.land old MSG_CONFIG_SPEC_REV_MASK ∧
  (∀ reg', reg' ≠ reg → reg_get (final r) reg' = reg_get p reg') ∧
  count_ev is_regmap_write (events r) = 1%nat ∧
  result r = bus_ret p ∧
  events r =
    [ev_spin_lock_irqsave;
     ev_regmap_update_bits reg
       (Z.lor MSG_CONFIG_PORT_DATA_ROLE MSG_CONFIG_PORT_POWER_ROLE)
       (Z.lor (Z.shiftl (bool_to_Z data_role_host) 3)
              (Z.shiftl (bool_to_Z power_role_src) 2))
       (bus_ret p);
     ev_spin_unlock_irqrestore;
     ev_log LOG_DBG "pdphy_set_roles: data_role_host=%d power_role_src=%d\n"] ∧
  (bus_ret p = 0 →
   result r = 0 ∧
   Z.testbit new 3 = data_role_host ∧ Z.testbit new 2 = power_role_src).
Proof.
  intros reg r old new Hi.
  destruct (set_roles_run data_role_host power_role_src p) as (Hres & Hmap & Hevs).
  fold reg r in Hres, Hmap, Hevs. fold old in Hmap.
  pose proof Hres as Hres'. pose proof Hevs as Hevs'.
  assert (Hnew : new = if bus_ret p =? 0
                       then roles_merged old data_role_host power_role_src
                       else old).
  { subst new. unfold reg_get at 1. rewrite Hmap.
    destruct (bus_ret p =? 0); [|reflexivity].
    unfold reg_val. rewrite lookup_insert_eq. reflexivity. }
  rewrite Hres, Hnew. clear Hnew.
  split; [|split; [|split; [|split; [|split; [|split; [|split]]]]]].
  - intros H2 H3. destruct (bus_ret p =? 0); [|reflexivity].
    rewrite roles_merged_testbit by exact Hi.
    apply Z.eqb_neq in H2, H3. rewrite H2, H3. reflexivity.
  - destruct (bus_ret p =? 0) eqn:Hb.
    + rewrite !roles_merged_testbit by lia. split; reflexivity.
    + rewrite Hmap. try rewrite Hb. reflexivity.
  - destruct (bus_ret p =? 0); [|reflexivity].
    apply Z.bits_inj'. intros n Hn.
    rewrite !Z.land_spec.
    destruct (Z_lt_dec n 8) as [Hlt|Hge].
    + rewrite roles_merged_testbit by lia.
      destruct (testbit_byte_cases n (conj Hn Hlt))
        as [->|[->|[->|[->|[->|[->|[->| ->]]]]]]];
        destruct data_role_host, power_role_src, (Z.testbit old _); reflexivity.
    + replace (Z.testbit MSG_CONFIG_SPEC_REV_MASK n) with false;
        [rewrite !andb_false_r; reflexivity|].
      symmetry. apply (Z.bits_above_log2 MSG_CONFIG_SPEC_REV_MASK n);
        [discriminate|]. change (Z.log2 MSG_CONFIG_SPEC_REV_MASK) with 1. lia.
  - intros reg' Hne. unfold reg_get. rewrite Hmap.
    destruct (bus_ret p =? 0); [|reflexivity].
    unfold reg_val. rewrite lookup_insert_ne by congruence. reflexivity.
  - rewrite Hevs. reflexivity.
  - reflexivity.
  - exact Hevs'.
  - intros Hok. pose proof (proj2 (Z.eqb_eq _ _) Hok) as Hb. rewrite Hb.
    rewrite !roles_merged_testbit by lia.
    repeat split; try reflexivity; exact Hok.
Qed.

(** C10 on [dev_msg_config], host and source requested: the call returns
    0, both role bits are set, and bit 0 of the revision field survives. *)
Lemma set_roles_changes_only_role_bits_witness :
  result (qcom_pmic_tcpm_pdphy_set_roles true true dev_msg_config) = 0 ∧
  Z.testbit
    (reg_get (final (qcom_pmic_tcpm_pdphy_set_roles true true dev_msg_config))
       (base dev_msg_config + USB_PDPHY_MSG_CONFIG_REG)) 3 = true ∧
  Z.testbit
    (reg_get (final (qcom_pmic_tcpm_pdphy_set_roles true true dev_msg_config))
       (base dev_msg_config + USB_PDPHY_MSG_CONFIG_REG)) 2 = true ∧
  Z.testbit
    (reg_get (final (qcom_pmic_tcpm_pdphy_set_roles true true dev_msg_config))
       (base dev_msg_config + USB_PDPHY_MSG_CONFIG_REG)) 0
  = Z.testbit
      (reg_get dev_msg_config (base dev_msg_config + USB_PDPHY_MSG_CONFIG_REG)) 0.
Proof.
  pose proof (set_roles_changes_only_role_bits true true dev_msg_config 0) as H.
  cbv zeta in H.
  destruct H as (Hother & _ & _ & _ & _ & _ & _ & Hset); [lia|].
  destruct (Hset eq_refl) as (Hres & H3 & H2).
  split; [exact Hres|]. split; [exact H3|]. split; [exact H2|].
  apply Hother; lia.
Defined.

(** * Further properties of the driver *)

(** Expose the register offsets to arithmetic. *)
Ltac unfold_regs :=
  unfold USB_PDPHY_MSG_CONFIG_REG, USB_PDPHY_EN_CONTROL_REG,
    USB_PDPHY_RX_STATUS_REG, USB_PDPHY_FRAME_FILTER_REG, USB_PDPHY_TX_SIZE_REG,
    USB_PDPHY_TX_CONTROL_REG, USB_PDPHY_RX_SIZE_REG,
    USB_PDPHY_RX_ACKNOWLEDGE_REG, USB_PDPHY_TX_BUFFER_HDR_REG,
    USB_PDPHY_TX_BUFFER_DATA_REG, USB_PDPHY_RX_BUFFER_REG in *.

(** Look registers up in a map built by single-register writes. *)
Ltac lookup_regs :=
  unfold reg_get, reg_val;
  cbn [regmap base vdd_pdphy reset_work bus
       with_regmap with_bus with_vdd with_reset_work bus_step];
  unfold_regs;
  repeat first
    [ rewrite lookup_insert_eq
    | rewrite lookup_insert_ne by lia ].

(** ** The reset controller, continued *)

(** The device that [resetOn] leaves, for every behaviour of the bus. *)
Lemma reset_on_final (p : pmic_pdphy) :
  final (qcom_pmic_tcpm_pdphy_reset_on p) =
    let r1 := bus_ret p in
    let p1 := bus_step p in
    let r2 := bus_ret p1 in
    let p2 := bus_step p1 in
    if r1 =? 0 then
      if r2 =? 0 then
        with_regmap p2
          (<[base p + USB_PDPHY_FRAME_FILTER_REG := 0]>
             (<[base p + USB_PDPHY_TX_CONTROL_REG := 0]> (regmap p)))
      else
        with_regmap p2 (<[base p + USB_PDPHY_TX_CONTROL_REG := 0]> (regmap p))
    else p1.
Proof.
  unfold qcom_pmic_tcpm_pdphy_reset_on, regmap_write, dev_err.
  exec; reflexivity.
Qed.

(** The device that [resetOff] leaves. *)
Lemma reset_off_final (p : pmic_pdphy) :
  final (qcom_pmic_tcpm_pdphy_reset_off p) =
    if bus_ret p =? 0 then
      with_regmap (bus_step p)
        (<[base p + USB_PDPHY_FRAME_FILTER_REG :=
             Z.lor FRAME_FILTER_EN_SOP FRAME_FILTER_EN_HARD_RESET]> (regmap p))
    else bus_step p.
Proof.
  unfold qcom_pmic_tcpm_pdphy_reset_off, regmap_write, dev_err.
  exec; reflexivity.
Qed.

(** X1: when the bus works, [resetOn] leaves 0 in the TX control and the
    frame-filter registers, and a second [resetOn] right after the first
    changes no register. *)
Theorem reset_on_idempotent (p : pmic_pdphy) :
  let p1 := final (qcom_pmic_tcpm_pdphy_reset_on p) in
  let p2 := final (qcom_pmic_tcpm_pdphy_reset_on p1) in
  bus_ok 4 p = true →
  reg_get p1 (base p + USB_PDPHY_TX_CONTROL_REG) = 0 ∧
  reg_get p1 (base p + USB_PDPHY_FRAME_FILTER_REG) = 0 ∧
  regmap p2 = regmap p1.
Proof.
  intros p1 p2 Hbus.
  apply bus_ok_S in Hbus as [H1 Hbus]. apply bus_ok_S in Hbus as [H2 Hbus].
  apply bus_ok_S in Hbus as [H3 Hbus]. apply bus_ok_S in Hbus as [H4 _].
  assert (Hp1 : p1 = with_regmap (bus_step (bus_step p))
            (<[base p + USB_PDPHY_FRAME_FILTER_REG := 0]>
               (<[base p + USB_PDPHY_TX_CONTROL_REG := 0]> (regmap p)))).
  { subst p1. rewrite reset_on_final. cbv zeta. rewrite H1, H2. reflexivity. }
  assert (Hp2 : regmap p2 =
            <[base p + USB_PDPHY_FRAME_FILTER_REG := 0]>
              (<[base p + USB_PDPHY_TX_CONTROL_REG := 0]> (regmap p1))).
  { subst p2. rewrite reset_on_final. cbv zeta. rewrite Hp1.
    change (bus_ret (with_regmap (bus_step (bus_step p)) _))
      with (bus_ret (bus_step (bus_step p))).
    rewrite H3.
    change (bus_ret (bus_step (with_regmap (bus_step (bus_step p)) _)))
      with (bus_ret (bus_step (bus_step (bus_step p)))).
    rewrite H4. reflexivity. }
  split; [|split].
  - rewrite Hp1. lookup_regs. reflexivity.
  - rewrite Hp1. lookup_regs. reflexivity.
  - rewrite Hp2, Hp1. cbn [regmap with_regmap].
    apply map_eq. intros i. unfold_regs.
    destruct (decide (i = base p + 76)) as [->|];
      [|destruct (decide (i = base p + 68)) as [->|]];
      repeat first
        [ rewrite lookup_insert_eq
        | rewrite lookup_insert_ne by lia ];
      reflexivity.
Qed.

(** X1 on a device with traffic behind it. *)
Lemma reset_on_idempotent_witness :
  reg_get (final (qcom_pmic_tcpm_pdphy_reset_on dev_busy_regs))
    (0x1700 + USB_PDPHY_TX_CONTROL_REG) = 0 ∧
  reg_get (final (qcom_pmic_tcpm_pdphy_reset_on dev_busy_regs))
    (0x1700 + USB_PDPHY_FRAME_FILTER_REG) = 0.
Proof.
  pose proof (reset_on_idempotent dev_busy_regs eq_refl) as (H1 & H2 & _).
  split; [exact H1 | exact H2].
Defined.

Lemma sig_reset_work_final (p : pmic_pdphy) :
  final (qcom_pmic_tcpm_pdphy_sig_reset_work p) =
    final (qcom_pmic_tcpm_pdphy_reset_off
             (final (qcom_pmic_tcpm_pdphy_reset_on p))).
Proof.
  unfold qcom_pmic_tcpm_pdphy_sig_reset_work, qcom_pmic_tcpm_pdphy_reset_on,
    qcom_pmic_tcpm_pdphy_reset_off, regmap_write, dev_err, spin_lock_irqsave,
    spin_unlock_irqrestore, tcpm_pd_hard_reset.
  exec; reflexivity.
Qed.

(** X2: [remove] returns 0 whatever the bus does; it changes no register
    but the TX control and frame-filter registers, does not write the
    PHY-enable register and does not release the supply. *)
Theorem remove_leaves_phy_powered (p : pmic_pdphy) (reg : Z) :
  let r := qcom_pmic_tcpm_pdphy_remove p in
  reg ≠ base p + USB_PDPHY_TX_CONTROL_REG →
  reg ≠ base p + USB_PDPHY_FRAME_FILTER_REG →
  result r = 0 ∧
  reg_get (final r) reg = reg_get p reg ∧
  vdd_pdphy (final r) = vdd_pdphy p ∧
  count_ev is_regulator_disable (events r) = 0%nat ∧
  attempted (base p + USB_PDPHY_EN_CONTROL_REG) (events r) = false.
Proof.
  intros r Htx Hff. subst r.
  unfold qcom_pmic_tcpm_pdphy_remove, qcom_pmic_tcpm_pdphy_reset_on,
    regmap_write, dev_err.
  exec.
  all: cbn [count_ev List.filter is_regulator_disable length attempted existsb
            is_write_to];
    rewrite ?Z_add_eqb_cancel; repeat split; try reflexivity.
  all: lookup_regs; reflexivity.
Qed.

Lemma remove_leaves_phy_powered_witness :
  result (qcom_pmic_tcpm_pdphy_remove dev_powered) = 0 ∧
  reg_get (final (qcom_pmic_tcpm_pdphy_remove dev_powered))
    (0x1700 + USB_PDPHY_MSG_CONFIG_REG) = 0x0E ∧
  vdd_pdphy (final (qcom_pmic_tcpm_pdphy_remove dev_powered)) = 1%nat.
Proof.
  pose proof (remove_leaves_phy_powered dev_powered
                (0x1700 + USB_PDPHY_MSG_CONFIG_REG)) as H.
  cbv zeta in H. destruct H as (H1 & H2 & H3 & _).
  - vm_compute. discriminate.
  - vm_compute. discriminate.
  - split; [exact H1 | split; [exact H2 | exact H3]].
Defined.

(** X3: when the bus works, the hard-reset work leaves 0 in the TX control
    register and the SOP and hard-reset acceptance bits in the frame-filter
    register; no other register changes and the supply stays as it was. *)
Theorem hard_reset_work_registers (p : pmic_pdphy) (reg : Z) :
  let r := qcom_pmic_tcpm_pdphy_sig_reset_work p in
  bus_ok 3 p = true →
  reg ≠ base p + USB_PDPHY_TX_CONTROL_REG →
  reg ≠ base p + USB_PDPHY_FRAME_FILTER_REG →
  reg_get (final r) (base p + USB_PDPHY_TX_CONTROL_REG) = 0 ∧
  reg_get (final r) (base p + USB_PDPHY_FRAME_FILTER_REG) =
    Z.lor FRAME_FILTER_EN_SOP FRAME_FILTER_EN_HARD_RESET ∧
  reg_get (final r) reg = reg_get p reg ∧
  vdd_pdphy (final r) = vdd_pdphy p.
Proof.
  intros r Hbus Htx Hff. subst r.
  apply bus_ok_S in Hbus as [H1 Hbus]. apply bus_ok_S in Hbus as [H2 Hbus].
  apply bus_ok_S in Hbus as [H3 _].
  rewrite sig_reset_work_final, reset_off_final, reset_on_final.
  cbv zeta. rewrite H1, H2. cbn [Z.eqb].
  change (bus_ret (with_regmap (bus_step (bus_step p)) _))
    with (bus_ret (bus_step (bus_step p))).
  rewrite H3. cbn [Z.eqb].
  repeat split; try reflexivity; lookup_regs; reflexivity.
Qed.

Lemma hard_reset_work_registers_witness :
  reg_get (final (qcom_pmic_tcpm_pdphy_sig_reset_work dev_busy_regs))
    (0x1700 + USB_PDPHY_FRAME_FILTER_REG) = 0x21 ∧
  reg_get (final (qcom_pmic_tcpm_pdphy_sig_reset_work dev_busy_regs))
    (0x1700 + USB_PDPHY_MSG_CONFIG_REG) = 0x0D.
Proof.
  pose proof (hard_reset_work_registers dev_busy_regs
                (0x1700 + USB_PDPHY_MSG_CONFIG_REG) eq_refl) as H.
  cbv zeta in H. destruct H as (_ & H2 & H3 & _).
  - vm_compute. discriminate.
  - vm_compute. discriminate.
  - split; [exact H2 | exact H3].
Defined.

(** X4: when [resetOn] works and the frame-filter write of [resetOff]
    fails, the hard-reset work leaves the frame filter at 0 (no frame is
    accepted), logs the failure, and still notifies the upper port of the
    hard reset, once. *)
Theorem hard_reset_work_filter_failure (p : pmic_pdphy) :
  let r := qcom_pmic_tcpm_pdphy_sig_reset_work p in
  bus_ok 2 p = true →
  bus_ret (bus_step (bus_step p)) ≠ 0 →
  reg_get (final r) (base p + USB_PDPHY_FRAME_FILTER_REG) = 0 ∧
  logged "pd_reset_off error\n" (events r) = true ∧
  count_ev is_hard_reset (events r) = 1%nat.
Proof.
  intros r Hbus H3. subst r.
  apply bus_ok_S in Hbus as [H1 Hbus]. apply bus_ok_S in Hbus as [H2 _].
  apply Z.eqb_neq in H3.
  split; [|split].
  - rewrite sig_reset_work_final, reset_off_final, reset_on_final.
    cbv zeta. rewrite H1, H2. cbn [Z.eqb].
    change (bus_ret (with_regmap (bus_step (bus_step p)) _))
      with (bus_ret (bus_step (bus_step p))).
    rewrite H3. lookup_regs. reflexivity.
  - rewrite sig_reset_work_events, reset_off_events, reset_on_events, reset_on_final.
    cbv zeta. rewrite H1, H2. cbn [Z.eqb].
    change (bus_ret (with_regmap (bus_step (bus_step p)) _))
      with (bus_ret (bus_step (bus_step p))).
    rewrite H3. reflexivity.
  - rewrite sig_reset_work_events, reset_off_events, reset_on_events, reset_on_final.
    cbv zeta. rewrite H1, H2. cbn [Z.eqb].
    change (bus_ret (with_regmap (bus_step (bus_step p)) _))
      with (bus_ret (bus_step (bus_step p))).
    rewrite H3. reflexivity.
Qed.

Lemma hard_reset_work_filter_failure_witness :
  reg_get (final (qcom_pmic_tcpm_pdphy_sig_reset_work dev_filter_write_fails))
    (0x1700 + USB_PDPHY_FRAME_FILTER_REG) = 0 ∧
  count_ev is_hard_reset
    (events (qcom_pmic_tcpm_pdphy_sig_reset_work dev_filter_write_fails)) = 1%nat.
Proof.
  pose proof (hard_reset_work_filter_failure dev_filter_write_fails eq_refl) as H.
  cbv zeta in H. destruct H as (H1 & _ & H3).
  - vm_compute. discriminate.
  - split; [exact H1 | exact H3].
Defined.

(** ** The transmit engine, continued *)

(** Result, device and events of the clear-and-read-back sequence, for
    every behaviour of the bus. *)
Lemma clear_tx_control_reg_run (p : pmic_pdphy) :
  qcom_pmic_tcpm_pdphy_clear_tx_control_reg p =
    let r1 := bus_ret p in
    let p1 := bus_step p in
    let r2 := bus_ret p1 in
    let p2 := with_regmap (bus_step p1)
                (<[base p + USB_PDPHY_TX_CONTROL_REG := 0]> (regmap p)) in
    if r1 =? 0 then
      if r2 =? 0 then
        (0, p2,
         [ev_regmap_write (base p + USB_PDPHY_TX_CONTROL_REG) 0 0;
          ev_regmap_read (base p + USB_PDPHY_TX_CONTROL_REG) 0])
      else
        (r2, p2,
         [ev_regmap_write (base p + USB_PDPHY_TX_CONTROL_REG) 0 0;
          ev_regmap_read (base p + USB_PDPHY_TX_CONTROL_REG) r2;
          ev_log LOG_ERR "pd_clear_tx_control_reg: clear tx flag\n"])
    else
      (r1, p1,
       [ev_regmap_write (base p + USB_PDPHY_TX_CONTROL_REG) 0 r1;
        ev_log LOG_ERR "pd_clear_tx_control_reg: clear tx flag\n"]).
Proof.
  unfold qcom_pmic_tcpm_pdphy_clear_tx_control_reg, regmap_write, regmap_read,
    dev_err.
  exec; outcomes; try congruence; reflexivity.
Qed.

(** X5: a signal transmission that succeeds leaves in the TX control
    register a value with the send-signal bit set, the send-message bit
    clear and the frame-type field 1 for cable reset and hard reset and 0
    for every other type; the register was written twice, 0 first. *)
Theorem transmit_signal_control_value
    (type : tcpm_transmit_type) (negotiated_rev : Z) (p : pmic_pdphy) :
  let r := qcom_pmic_tcpm_pdphy_pd_transmit_signal type negotiated_rev p in
  let val := reg_get (final r) (base p + USB_PDPHY_TX_CONTROL_REG) in
  result r = 0 →
  written_to (base p + USB_PDPHY_TX_CONTROL_REG) (events r) = [0; val] ∧
  Z.testbit val 1 = true ∧
  Z.testbit val 0 = false ∧
  tx_control_frame_type val =
    match type with
    | TCPC_TX_CABLE_RESET | TCPC_TX_HARD_RESET => 1
    | _ => 0
    end.
Proof.
  intros r val Hok. subst val r. revert Hok.
  unfold qcom_pmic_tcpm_pdphy_pd_transmit_signal,
    qcom_pmic_tcpm_pdphy_clear_tx_control_reg, regmap_write, regmap_read,
    spin_lock_irqsave, spin_unlock_irqrestore, dev_err, dev_vdbg.
  destruct type; exec; intros Hok; outcomes; try contradiction.
  all: cbn [written_to]; rewrite ?Z_add_eqb_cancel; lookup_regs;
    repeat split; reflexivity.
Qed.

Lemma transmit_signal_control_value_witness :
  tx_control_frame_type
    (reg_get (final (qcom_pmic_tcpm_pdphy_pd_transmit_signal
                       TCPC_TX_HARD_RESET PD_REV20 (dev0 [] ∅)))
       (0x1700 + USB_PDPHY_TX_CONTROL_REG)) = 1.
Proof.
  pose proof (transmit_signal_control_value TCPC_TX_HARD_RESET PD_REV20
                (dev0 [] ∅) eq_refl) as (_ & _ & _ & H).
  exact H.
Defined.

(** X6: a transmission without a message returns the error of the first
    failing call among the clear, the read-back and the control write (0
    when none fails); it never reads the RX-acknowledge register, so it is
    never refused for a pending RX message, and it changes no register but
    the TX control register. *)
Theorem transmit_without_message
    (type : tcpm_transmit_type) (negotiated_rev : Z) (p : pmic_pdphy) (reg : Z) :
  let r := qcom_pmic_tcpm_pdphy_pd_transmit type None negotiated_rev p in
  let r1 := bus_ret p in
  let r2 := bus_ret (bus_step p) in
  let r3 := bus_ret (bus_step (bus_step p)) in
  reg ≠ base p + USB_PDPHY_TX_CONTROL_REG →
  result r = (if r1 =? 0 then if r2 =? 0 then r3 else r2 else r1) ∧
  existsb (is_read_of (base p + USB_PDPHY_RX_ACKNOWLEDGE_REG)) (events r)
    = false ∧
  reg_get (final r) reg = reg_get p reg.
Proof.
  intros r r1 r2 r3 Hreg. subst r r1 r2 r3.
  unfold qcom_pmic_tcpm_pdphy_pd_transmit,
    qcom_pmic_tcpm_pdphy_pd_transmit_signal,
    qcom_pmic_tcpm_pdphy_clear_tx_control_reg, regmap_write, regmap_read,
    spin_lock_irqsave, spin_unlock_irqrestore, dev_err, dev_vdbg, dev_dbg.
  exec.
  all: cbn [existsb is_read_of]; rewrite ?Z_add_eqb_cancel.
  all: repeat split; try reflexivity; outcomes; try congruence.
  all: lookup_regs; reflexivity.
Qed.

Lemma transmit_without_message_witness :
  result (qcom_pmic_tcpm_pdphy_pd_transmit TCPC_TX_HARD_RESET None PD_REV20
            (dev0 [0; -5] {[ 0x174B := 1 ]})) = -5 ∧
  reg_get (final (qcom_pmic_tcpm_pdphy_pd_transmit TCPC_TX_HARD_RESET None
                    PD_REV20 (dev0 [0; -5] {[ 0x174B := 1 ]})))
    (0x1700 + USB_PDPHY_RX_ACKNOWLEDGE_REG) = 1.
Proof.
  pose proof (transmit_without_message TCPC_TX_HARD_RESET PD_REV20
                (dev0 [0; -5] {[ 0x174B := 1 ]})
                (0x1700 + USB_PDPHY_RX_ACKNOWLEDGE_REG)) as H.
  cbv zeta in H. destruct H as (H1 & _ & H3).
  - vm_compute. discriminate.
  - split; [exact H1 | exact H3].
Defined.

(** *** Bulk transfers *)

Lemma store_bytes_lookup_other (data : list Z) (reg reg' : Z) (m : gmap Z Z) :
  reg' < reg ∨ reg + Z.of_nat (length data) ≤ reg' →
  store_bytes reg data m !! reg' = m !! reg'.
Proof.
  revert reg m. induction data as [|b data IH]; intros reg m Hout; cbn.
  - reflexivity.
  - rewrite IH by (cbn [length] in Hout; lia).
    apply lookup_insert_ne. cbn [length] in Hout. lia.
Qed.

Lemma load_store_bytes (data : list Z) (reg : Z) (m : gmap Z Z) :
  load_bytes (store_bytes reg data m) reg (length data) =
    (λ b, Z.land b 0xFF) <$> data.
Proof.
  revert reg m. induction data as [|b data IH]; intros reg m; cbn.
  - reflexivity.
  - rewrite IH. f_equal. unfold reg_val.
    rewrite store_bytes_lookup_other by lia.
    rewrite lookup_insert_eq. reflexivity.
Qed.

Lemma load_bytes_ext (m1 m2 : gmap Z Z) (reg : Z) (n : nat) :
  (∀ reg', reg ≤ reg' < reg + Z.of_nat n → m1 !! reg' = m2 !! reg') →
  load_bytes m1 reg n = load_bytes m2 reg n.
Proof.
  revert reg. induction n as [|n IH]; intros reg Heq; cbn.
  - reflexivity.
  - unfold reg_val. rewrite Heq by lia. f_equal. apply IH.
    intros reg' Hr. apply Heq. lia.
Qed.

Lemma load_bytes_insert_other (m : gmap Z Z) (reg reg' v : Z) (n : nat) :
  reg' < reg ∨ reg + Z.of_nat n ≤ reg' →
  load_bytes (<[reg' := v]> m) reg n = load_bytes m reg n.
Proof.
  intros Hout. apply load_bytes_ext. intros r Hr.
  apply lookup_insert_ne. lia.
Qed.

Lemma load_bytes_store_other (m : gmap Z Z) (data : list Z) (reg reg' : Z) (n : nat) :
  reg' + Z.of_nat (length data) ≤ reg ∨ reg + Z.of_nat n ≤ reg' →
  load_bytes (store_bytes reg' data m) reg n = load_bytes m reg n.
Proof.
  intros Hout. apply load_bytes_ext. intros r Hr.
  apply store_bytes_lookup_other. lia.
Qed.

Lemma header_bytes_masked (hdr : Z) :
  (λ b, Z.land b 0xFF) <$> header_bytes hdr = header_bytes hdr.
Proof.
  unfold header_bytes. cbn [fmap list_fmap].
  rewrite <- !Z.land_assoc. reflexivity.
Qed.

Lemma txbuf_len_no_wrap (hdr : Z) :
  u32 (pd_header_cnt_le hdr * 4) = 4 * pd_header_cnt_le hdr.
Proof.
  pose proof (pd_header_cnt_range hdr) as Hc.
  unfold u32. change (2 ^ 32) with 4294967296.
  rewrite Z.mod_small by lia. lia.
Qed.

(** ** The transmit engine: messages *)

Ltac unfold_payload :=
  unfold qcom_pmic_tcpm_pdphy_pd_transmit_payload,
    qcom_pmic_tcpm_pdphy_clear_tx_control_reg, regmap_bulk_write, regmap_write,
    regmap_read, spin_lock_irqsave, spin_unlock_irqrestore, dev_err.

(** Device and events of a message transmission that succeeds. *)
Lemma transmit_payload_success
    (type : tcpm_transmit_type) (msg : pd_message) (negotiated_rev : Z)
    (p : pmic_pdphy) :
  let r := qcom_pmic_tcpm_pdphy_pd_transmit_payload type msg negotiated_rev p in
  let b := base p in
  let txbuf_len := u32 (pd_header_cnt_le (header msg) * 4) in
  let data := take (Z.to_nat txbuf_len) (payload msg) in
  let txsize_len := u32 (sizeof_header + txbuf_len - 1) in
  let val :=
    Z.lor (Z.lor (TX_CONTROL_FRAME_TYPE (transmit_type_val type))
                 TX_CONTROL_SEND_MSG)
          (TX_CONTROL_RETRY_COUNT
             (if pd_header_rev (header msg) =? PD_REV30 then 2 else 3)) in
  let m1 := store_bytes (b + USB_PDPHY_TX_BUFFER_HDR_REG)
              (header_bytes (header msg))
              (<[b + USB_PDPHY_TX_CONTROL_REG := 0]> (regmap p)) in
  let m2 := if txbuf_len =? 0 then m1
            else store_bytes (b + USB_PDPHY_TX_BUFFER_DATA_REG) data m1 in
  result r = 0 →
  reg_get p (b + USB_PDPHY_RX_ACKNOWLEDGE_REG) = 0 ∧
  regmap (final r) =
    <[b + USB_PDPHY_TX_CONTROL_REG := Z.land val 0xFF]>
      (<[b + USB_PDPHY_TX_CONTROL_REG := 0]>
         (<[b + USB_PDPHY_TX_SIZE_REG := Z.land txsize_len 0xFF]> m2)) ∧
  events r =
    [ev_spin_lock_irqsave;
     ev_regmap_read (b + USB_PDPHY_RX_ACKNOWLEDGE_REG) 0;
     ev_regmap_write (b + USB_PDPHY_TX_CONTROL_REG) 0 0;
     ev_regmap_read (b + USB_PDPHY_TX_CONTROL_REG) 0;
     ev_regmap_bulk_write (b + USB_PDPHY_TX_BUFFER_HDR_REG)
       (header_bytes (header msg)) 0]
    ++ (if txbuf_len =? 0 then []
        else [ev_regmap_bulk_write (b + USB_PDPHY_TX_BUFFER_DATA_REG) data 0])
    ++ [ev_regmap_write (b + USB_PDPHY_TX_SIZE_REG) txsize_len 0;
        ev_regmap_write (b + USB_PDPHY_TX_CONTROL_REG) 0 0;
        ev_regmap_read (b + USB_PDPHY_TX_CONTROL_REG) 0;
        ev_regmap_write (b + USB_PDPHY_TX_CONTROL_REG) val 0;
        ev_spin_unlock_irqrestore].
Proof.
  cbv zeta. intros Hok. revert Hok. unfold_payload.
  exec; intros Hok; outcomes; try contradiction; try discriminate.
  all: repeat split; try reflexivity; assumption.
Qed.

(** The control value of a message transmission, field by field. *)
Lemma payload_control_fields (type : tcpm_transmit_type) (rev30 : bool) :
  let val :=
    Z.lor (Z.lor (TX_CONTROL_FRAME_TYPE (transmit_type_val type))
                 TX_CONTROL_SEND_MSG)
          (TX_CONTROL_RETRY_COUNT (if rev30 then 2 else 3)) in
  Z.land val 0xFF = val ∧
  Z.testbit val 0 = true ∧
  Z.testbit val 1 = false ∧
  tx_control_frame_type val = transmit_type_val type.
Proof. destruct type, rev30; repeat split; reflexivity. Qed.

(** X7: a message transmission that succeeds leaves in the TX control
    register a value with the send-message bit set, the send-signal bit
    clear and the frame-type field equal to the transmit type of the
    request; the register was written three times, 0 twice and then that
    value. *)
Theorem transmit_payload_control_value
    (type : tcpm_transmit_type) (msg : pd_message) (negotiated_rev : Z)
    (p : pmic_pdphy) :
  let r := qcom_pmic_tcpm_pdphy_pd_transmit_payload type msg negotiated_rev p in
  let val := reg_get (final r) (base p + USB_PDPHY_TX_CONTROL_REG) in
  result r = 0 →
  written_to (base p + USB_PDPHY_TX_CONTROL_REG) (events r) = [0; 0; val] ∧
  Z.testbit val 0 = true ∧
  Z.testbit val 1 = false ∧
  tx_control_frame_type val = transmit_type_val type.
Proof.
  intros r val Hok. subst val r.
  destruct (transmit_payload_success type msg negotiated_rev p Hok)
    as (_ & Hmap & Hevs).
  pose proof (payload_control_fields type
                (pd_header_rev (header msg) =? PD_REV30)) as (Hb & H0 & H1 & Hft).
  cbv zeta in Hmap, Hevs, Hb, H0, H1, Hft.
  unfold reg_get, reg_val. rewrite Hmap, Hevs, lookup_insert_eq. cbn [default].
  rewrite Hb. split; [|auto].
  destruct (u32 (pd_header_cnt_le (header msg) * 4) =? 0);
    cbn [app written_to]; rewrite ?Z_add_eqb_cancel; reflexivity.
Qed.

Lemma transmit_payload_control_value_witness :
  tx_control_frame_type
    (reg_get (final (qcom_pmic_tcpm_pdphy_pd_transmit_payload
                       TCPC_TX_SOP_PRIME msg_rev20 PD_REV20 (dev0 [] ∅)))
       (0x1700 + USB_PDPHY_TX_CONTROL_REG)) = 1.
Proof.
  pose proof (transmit_payload_control_value TCPC_TX_SOP_PRIME msg_rev20
                PD_REV20 (dev0 [] ∅) eq_refl) as (_ & _ & _ & H).
  exact H.
Defined.

(** X8: after a message transmission that succeeds, the TX header
    registers hold the two bytes of the header, low byte first, the TX data
    registers hold the first 4 * objectCount bytes of the payload, and the
    TX size register holds 1 + 4 * objectCount. *)
Theorem transmit_payload_fills_tx_buffer
    (type : tcpm_transmit_type) (msg : pd_message) (negotiated_rev : Z)
    (p : pmic_pdphy) :
  let r := qcom_pmic_tcpm_pdphy_pd_transmit_payload type msg negotiated_rev p in
  let cnt := pd_header_cnt_le (header msg) in
  let m := regmap (final r) in
  result r = 0 →
  length (payload msg) = Z.to_nat sizeof_payload →
  load_bytes m (base p + USB_PDPHY_TX_BUFFER_HDR_REG) 2 =
    header_bytes (header msg) ∧
  load_bytes m (base p + USB_PDPHY_TX_BUFFER_DATA_REG) (Z.to_nat (4 * cnt)) =
    (λ b, Z.land b 0xFF) <$> take (Z.to_nat (4 * cnt)) (payload msg) ∧
  reg_val m (base p + USB_PDPHY_TX_SIZE_REG) = 1 + 4 * cnt.
Proof.
  intros r cnt m Hok Hlen. subst m r.
  destruct (transmit_payload_success type msg negotiated_rev p Hok)
    as (_ & Hmap & _).
  cbv zeta in Hmap. rewrite Hmap. clear Hmap Hok.
  rewrite txsize_len_no_wrap, txbuf_len_no_wrap. fold cnt.
  pose proof (pd_header_cnt_range (header msg)) as Hc. fold cnt in Hc.
  change (Z.to_nat sizeof_payload) with 28%nat in Hlen.
  set (data := take (Z.to_nat (4 * cnt)) (payload msg)).
  assert (Hdata : length data = Z.to_nat (4 * cnt)).
  { subst data. rewrite length_take. lia. }
  split; [|split].
  - rewrite !load_bytes_insert_other by (unfold_regs; lia).
    destruct (4 * cnt =? 0).
    + rewrite <- header_bytes_masked at 2. apply (load_store_bytes (header_bytes _)).
    + rewrite load_bytes_store_other by (unfold_regs; cbn [length]; lia).
      rewrite <- header_bytes_masked at 2. apply (load_store_bytes (header_bytes _)).
  - rewrite !load_bytes_insert_other by (unfold_regs; lia).
    destruct (Z.eqb_spec (4 * cnt) 0) as [Hz|Hnz].
    + subst data. rewrite Hz. reflexivity.
    + rewrite <- Hdata. apply load_store_bytes.
  - unfold reg_val. unfold_regs.
    rewrite !lookup_insert_ne by lia. rewrite lookup_insert_eq. cbn [default].
    change 255 with (Z.ones 8). rewrite Z.land_ones by lia.
    change (2 ^ 8) with 256. unfold id. clearbody cnt.
    rewrite Z.mod_small; lia.
Qed.

Lemma transmit_payload_fills_tx_buffer_witness :
  load_bytes
    (regmap (final (qcom_pmic_tcpm_pdphy_pd_transmit_payload
                      TCPC_TX_SOP msg_rev20 PD_REV20 (dev0 [] ∅))))
    (0x1700 + USB_PDPHY_TX_BUFFER_HDR_REG) 2 = [0x41; 0x20].
Proof.
  pose proof (transmit_payload_fills_tx_buffer TCPC_TX_SOP msg_rev20 PD_REV20
                (dev0 [] ∅) eq_refl eq_refl) as (H & _).
  exact H.
Defined.

(** X9: a message transmission logs its error exactly when it fails, and
    it fails whenever the RX-acknowledge register is not 0 when the call
    starts: a call that returns 0 found that register at 0. *)
Theorem transmit_payload_failure_is_logged
    (type : tcpm_transmit_type) (msg : pd_message) (negotiated_rev : Z)
    (p : pmic_pdphy) :
  let r := qcom_pmic_tcpm_pdphy_pd_transmit_payload type msg negotiated_rev p in
  logged "pd_transmit_payload: %d hdr %*ph data %*ph ret %d\n" (events r)
    = negb (result r =? 0) ∧
  (result r = 0 → reg_get p (base p + USB_PDPHY_RX_ACKNOWLEDGE_REG) = 0).
Proof.
  cbv zeta. split.
  - unfold_payload. exec; use_outcomes; try reflexivity.
    all: outcomes; discriminate.
  - intros Hok.
    apply (transmit_payload_success type msg negotiated_rev p Hok).
Qed.

(** X9 with an RX message pending: the call fails and says so. *)
Lemma transmit_payload_failure_is_logged_witness :
  logged "pd_transmit_payload: %d hdr %*ph data %*ph ret %d\n"
    (events (qcom_pmic_tcpm_pdphy_pd_transmit_payload TCPC_TX_SOP msg_rev20
               PD_REV20 dev_rx_pending)) = true.
Proof.
  pose proof (transmit_payload_failure_is_logged TCPC_TX_SOP msg_rev20 PD_REV20
                dev_rx_pending) as [H _].
  exact H.
Defined.



(** X11: a message transmission changes no register outside the TX
    control register, the TX size register and the TX buffer (header and
    data), whatever the bus does and however it ends; the RX registers, the
    message-config, PHY-enable and frame-filter registers keep their
    values. *)
Theorem transmit_payload_frame
    (type : tcpm_transmit_type) (msg : pd_message) (negotiated_rev : Z)
    (p : pmic_pdphy) (reg : Z) :
  let r := qcom_pmic_tcpm_pdphy_pd_transmit_payload type msg negotiated_rev p in
  reg ≠ base p + USB_PDPHY_TX_CONTROL_REG →
  reg ≠ base p + USB_PDPHY_TX_SIZE_REG →
  reg < base p + USB_PDPHY_TX_BUFFER_HDR_REG
    ∨ base p + USB_PDPHY_TX_BUFFER_DATA_REG + sizeof_payload ≤ reg →
  reg_get (final r) reg = reg_get p reg.
Proof.
  intros r Htx Hsz Hbuf. subst r.
  pose proof (pd_header_cnt_range (header msg)) as Hc.
  pose proof (txbuf_len_no_wrap (header msg)) as Hu.
  revert Hu. unfold_payload.
  set (data := take _ (payload msg)).
  intros Hu.
  assert (Hdata : Z.of_nat (length data) ≤ 28).
  { subst data. rewrite length_take, Hu. lia. }
  clearbody data. change sizeof_payload with 28 in Hbuf.
  exec.
  all: unfold reg_val; unfold_regs;
    repeat first
      [ rewrite lookup_insert_ne by lia
      | rewrite store_bytes_lookup_other by (cbn [length header_bytes]; lia) ];
    reflexivity.
Qed.

Lemma transmit_payload_frame_witness :
  reg_get (final (qcom_pmic_tcpm_pdphy_pd_transmit_payload TCPC_TX_SOP msg_rev20
                    PD_REV20 dev_busy_regs))
    (0x1700 + USB_PDPHY_FRAME_FILTER_REG) = 0x21.
Proof.
  refine (transmit_payload_frame TCPC_TX_SOP msg_rev20 PD_REV20 dev_busy_regs
            (0x1700 + USB_PDPHY_FRAME_FILTER_REG) _ _ _).
  - vm_compute. discriminate.
  - vm_compute. discriminate.
  - left. vm_compute. reflexivity.
Defined.

(** ** Failed transmissions *)

(** X12: a transmission that fails never leaves a send command of its own
    in the TX control register: whatever the bus does, after a failed call
    the register holds either the value it had before the call (when the
    first clear did not go through, or the call was refused as busy or
    could not read the RX-acknowledge register) or 0. *)
Theorem failed_transmit_arms_nothing
    (type : tcpm_transmit_type) (msg : option pd_message) (negotiated_rev : Z)
    (p : pmic_pdphy) :
  let r := qcom_pmic_tcpm_pdphy_pd_transmit type msg negotiated_rev p in
  let tx_control := base p + USB_PDPHY_TX_CONTROL_REG in
  result r ≠ 0 →
  reg_get (final r) tx_control = reg_get p tx_control ∨
  reg_get (final r) tx_control = 0.
Proof.
  intros r tx_control Hfail. subst r tx_control. revert Hfail.
  destruct msg as [m|].
  - unfold qcom_pmic_tcpm_pdphy_pd_transmit,
      qcom_pmic_tcpm_pdphy_pd_transmit_payload,
      qcom_pmic_tcpm_pdphy_clear_tx_control_reg, regmap_bulk_write,
      regmap_write, regmap_read, spin_lock_irqsave, spin_unlock_irqrestore,
      dev_err, dev_dbg.
    set (data := take _ (payload m)).
    pose proof (pd_header_cnt_range (header m)) as Hc.
    assert (Hdata : Z.of_nat (length data) ≤ Z.of_nat (Z.to_nat
              (u32 (pd_header_cnt_le (header m) * 4)))).
    { subst data. rewrite length_take. lia. }
    assert (Hu : u32 (pd_header_cnt_le (header m) * 4) ≤ 28).
    { unfold u32. change (2 ^ 32) with 4294967296.
      rewrite Z.mod_small by lia. lia. }
    clearbody data.
    exec; intros Hfail; try (exfalso; apply Hfail; reflexivity).
    all: first
      [ left; reflexivity
      | right; unfold reg_val; unfold_regs;
        repeat first
          [ rewrite lookup_insert_eq
          | rewrite lookup_insert_ne by lia
          | rewrite store_bytes_lookup_other
              by (cbn [length header_bytes]; lia) ];
        reflexivity ].
  - unfold qcom_pmic_tcpm_pdphy_pd_transmit,
      qcom_pmic_tcpm_pdphy_pd_transmit_signal,
      qcom_pmic_tcpm_pdphy_clear_tx_control_reg, regmap_write, regmap_read,
      spin_lock_irqsave, spin_unlock_irqrestore, dev_err, dev_vdbg, dev_dbg.
    exec; intros Hfail; try (exfalso; apply Hfail; reflexivity).
    all: first
      [ left; reflexivity
      | right; lookup_regs; reflexivity ].
Qed.

(** X12 when the last write, the one that would start the transmission,
    fails: the old send command is gone and no new one is in place. *)
Lemma failed_transmit_arms_nothing_witness :
  reg_get (final (qcom_pmic_tcpm_pdphy_pd_transmit TCPC_TX_HARD_RESET None
                    PD_REV20 dev_armed))
    (base dev_armed + USB_PDPHY_TX_CONTROL_REG)
  = reg_get dev_armed (base dev_armed + USB_PDPHY_TX_CONTROL_REG)
  ∨ reg_get (final (qcom_pmic_tcpm_pdphy_pd_transmit TCPC_TX_HARD_RESET None
                      PD_REV20 dev_armed))
      (base dev_armed + USB_PDPHY_TX_CONTROL_REG) = 0.
Proof.
  apply (failed_transmit_arms_nothing TCPC_TX_HARD_RESET None PD_REV20 dev_armed).
  vm_compute. discriminate.
Defined.

(** ** The transaction guard *)

(** X13: every run of a transmission, of the receive engine, of [setPdRx],
    of [setRoles] and of the hard-reset work, whatever the bus does, has
    exactly one guarded section: the guard is taken once, before the first
    register access, released once, after the last, and never taken again;
    every register access lies inside that section and every notification
    of the upper port outside it.  A run of the interrupt handler takes
    the guard at most once and obeys the same discipline. *)
Theorem guard_discipline
    (type : tcpm_transmit_type) (msg : option pd_message) (negotiated_rev : Z)
    (on data_role_host power_role_src : bool) (virq : Z) (p : pmic_pdphy) :
  one_guarded_section
    (events (qcom_pmic_tcpm_pdphy_pd_transmit type msg negotiated_rev p)) = true ∧
  one_guarded_section (events (qcom_pmic_tcpm_pdphy_pd_receive p)) = true ∧
  one_guarded_section (events (qcom_pmic_tcpm_pdphy_set_pd_rx on p)) = true ∧
  one_guarded_section
    (events (qcom_pmic_tcpm_pdphy_set_roles data_role_host power_role_src p))
    = true ∧
  one_guarded_section (events (qcom_pmic_tcpm_pdphy_sig_reset_work p)) = true ∧
  guard_once guard_untaken (events (qcom_pmic_tcpm_pdphy_isr virq p)) = true ∧
  (count_ev is_lock (events (qcom_pmic_tcpm_pdphy_isr virq p)) ≤ 1)%nat.
Proof.
  repeat split.
  - destruct msg as [m|].
    + unfold qcom_pmic_tcpm_pdphy_pd_transmit,
        qcom_pmic_tcpm_pdphy_pd_transmit_payload,
        qcom_pmic_tcpm_pdphy_clear_tx_control_reg, regmap_bulk_write,
        regmap_write, regmap_read, spin_lock_irqsave, spin_unlock_irqrestore,
        dev_err, dev_dbg.
      exec; reflexivity.
    + unfold qcom_pmic_tcpm_pdphy_pd_transmit,
        qcom_pmic_tcpm_pdphy_pd_transmit_signal,
        qcom_pmic_tcpm_pdphy_clear_tx_control_reg, regmap_write, regmap_read,
        spin_lock_irqsave, spin_unlock_irqrestore, dev_err, dev_vdbg, dev_dbg.
      exec; reflexivity.
  - unfold qcom_pmic_tcpm_pdphy_pd_receive, regmap_read, regmap_bulk_read,
      regmap_write, spin_lock_irqsave, spin_unlock_irqrestore, dev_dbg,
      dev_vdbg, tcpm_pd_receive.
    exec; reflexivity.
  - unfold qcom_pmic_tcpm_pdphy_set_pd_rx, regmap_write, spin_lock_irqsave,
      spin_unlock_irqrestore, dev_dbg.
    exec; reflexivity.
  - unfold qcom_pmic_tcpm_pdphy_set_roles, regmap_update_bits,
      spin_lock_irqsave, spin_unlock_irqrestore, dev_dbg.
    exec; reflexivity.
  - unfold qcom_pmic_tcpm_pdphy_sig_reset_work, qcom_pmic_tcpm_pdphy_reset_on,
      qcom_pmic_tcpm_pdphy_reset_off, regmap_write, dev_err, spin_lock_irqsave,
      spin_unlock_irqrestore, tcpm_pd_hard_reset.
    exec; reflexivity.
  - unfold qcom_pmic_tcpm_pdphy_isr, qcom_pmic_tcpm_pdphy_pd_receive,
      regmap_read, regmap_bulk_read, regmap_write, spin_lock_irqsave,
      spin_unlock_irqrestore, dev_err, dev_dbg, dev_vdbg, tcpm_pd_receive,
      tcpm_pd_transmit_complete, schedule_work.
    exec; reflexivity.
  - unfold qcom_pmic_tcpm_pdphy_isr, qcom_pmic_tcpm_pdphy_pd_receive,
      regmap_read, regmap_bulk_read, regmap_write, spin_lock_irqsave,
      spin_unlock_irqrestore, dev_err, dev_dbg, dev_vdbg, tcpm_pd_receive,
      tcpm_pd_transmit_complete, schedule_work.
    exec; cbn [count_ev List.filter is_lock length]; lia.
Qed.

(** A run that drops the guard and takes it again between two register
    accesses does not pass. *)
Example two_guarded_sections_rejected :
  one_guarded_section
    [ev_spin_lock_irqsave; ev_regmap_write 0x1744 0 0;
     ev_spin_unlock_irqrestore;
     ev_spin_lock_irqsave; ev_regmap_write 0x1744 0x61 0;
     ev_spin_unlock_irqrestore] = false ∧
  guard_once guard_untaken
    [ev_spin_lock_irqsave; ev_regmap_write 0x1744 0 0;
     ev_spin_unlock_irqrestore;
     ev_spin_lock_irqsave; ev_regmap_write 0x1744 0x61 0;
     ev_spin_unlock_irqrestore] = false.
Proof. split; reflexivity. Qed.

(** ** The receive engine, continued *)

Ltac unfold_receive :=
  unfold qcom_pmic_tcpm_pdphy_pd_receive, regmap_read, regmap_bulk_read,
    regmap_write, spin_lock_irqsave, spin_unlock_irqrestore, dev_dbg, dev_vdbg,
    tcpm_pd_receive.

(** X14: the receive engine hands a buffer to the upper port exactly when
    none of its register calls failed, and then exactly once; after a
    failed call nothing is delivered. *)
Theorem receive_delivers_unless_bus_failed (p : pmic_pdphy) :
  let evs := events (qcom_pmic_tcpm_pdphy_pd_receive p) in
  count_ev is_receive evs = (if bus_failed evs then 0%nat else 1%nat).
Proof.
  cbv zeta.
  enough (H : count_ev is_receive (events (qcom_pmic_tcpm_pdphy_pd_receive p))
              = Nat.b2n (negb (bus_failed
                                 (events (qcom_pmic_tcpm_pdphy_pd_receive p))))).
  { rewrite H. destruct (bus_failed _); reflexivity. }
  unfold_receive. exec.
  all: cbn [count_ev List.filter is_receive length bus_failed existsb bus_ret_of
            orb negb Z.eqb];
    use_outcomes; reflexivity.
Qed.

(** X15: the receive engine writes the RX-acknowledge register exactly
    when it has read the RX buffer successfully, that is after the size
    read returned a size in [1, 28] and the status read and the bulk read
    succeeded; and it changes no other register, whatever the bus does. *)
Theorem receive_releases_buffer_after_read (p : pmic_pdphy) (reg : Z) :
  let r := qcom_pmic_tcpm_pdphy_pd_receive p in
  let size := reg_get p (base p + USB_PDPHY_RX_SIZE_REG) in
  reg ≠ base p + USB_PDPHY_RX_ACKNOWLEDGE_REG →
  attempted (base p + USB_PDPHY_RX_ACKNOWLEDGE_REG) (events r) =
    existsb (is_bulk_read_ok (base p + USB_PDPHY_RX_BUFFER_REG)) (events r) ∧
  attempted (base p + USB_PDPHY_RX_ACKNOWLEDGE_REG) (events r) =
    (bus_ret p =? 0) && rx_size_valid size
    && (bus_ret (bus_step p) =? 0)
    && (bus_ret (bus_step (bus_step p)) =? 0) ∧
  reg_get (final r) reg = reg_get p reg.
Proof.
  intros r size Hreg. subst r size. unfold rx_size_valid.
  unfold_receive. exec.
  all: cbn [attempted existsb is_write_to is_bulk_read_ok andb orb negb];
    rewrite ?Z_add_eqb_cancel; use_outcomes;
    repeat split; try reflexivity.
  all: lookup_regs; reflexivity.
Qed.

Lemma receive_releases_buffer_after_read_witness :
  attempted (0x1700 + USB_PDPHY_RX_ACKNOWLEDGE_REG)
    (events (qcom_pmic_tcpm_pdphy_pd_receive dev_rx_frame)) = true ∧
  reg_get (final (qcom_pmic_tcpm_pdphy_pd_receive dev_rx_frame))
    (0x1700 + USB_PDPHY_RX_SIZE_REG) = 3.
Proof.
  pose proof (receive_releases_buffer_after_read dev_rx_frame
                (0x1700 + USB_PDPHY_RX_SIZE_REG)) as H.
  cbv zeta in H. destruct H as (_ & H2 & H3).
  - vm_compute. discriminate.
  - split; [exact H2 | exact H3].
Defined.

(** ** The interrupt dispatcher, continued *)

(** X16: the interrupt handler returns [IRQ_HANDLED] for every interrupt
    number and every behaviour of the bus; for a number outside the six it
    handles it does nothing at all. *)
Theorem isr_always_handled (virq : Z) (p : pmic_pdphy) :
  result (qcom_pmic_tcpm_pdphy_isr virq p) = IRQ_HANDLED ∧
  (virq < PMIC_PDPHY_SIG_TX_IRQ ∨ PMIC_PDPHY_MSG_TX_DISCARD_IRQ < virq →
   qcom_pmic_tcpm_pdphy_isr virq p = (IRQ_HANDLED, p, [])).
Proof.
  split.
  - unfold qcom_pmic_tcpm_pdphy_isr, qcom_pmic_tcpm_pdphy_pd_receive,
      regmap_read, regmap_bulk_read, regmap_write, spin_lock_irqsave,
      spin_unlock_irqrestore, dev_err, dev_dbg, dev_vdbg, tcpm_pd_receive,
      tcpm_pd_transmit_complete, schedule_work.
    exec; reflexivity.
  - intros Hout. unfold qcom_pmic_tcpm_pdphy_isr.
    unfold PMIC_PDPHY_SIG_TX_IRQ, PMIC_PDPHY_SIG_RX_IRQ, PMIC_PDPHY_MSG_TX_IRQ,
      PMIC_PDPHY_MSG_RX_IRQ, PMIC_PDPHY_MSG_TX_FAIL_IRQ,
      PMIC_PDPHY_MSG_TX_DISCARD_IRQ in *.
    repeat match goal with
    | |- context [virq =? ?c] =>
        let H := fresh in
        destruct (Z.eqb_spec virq c) as [H|H]; [lia|]
    end.
    reflexivity.
Qed.

(** X16 on the fast-role-swap line, which has no handler. *)
Lemma isr_always_handled_witness :
  qcom_pmic_tcpm_pdphy_isr 7 dev_rx_frame = (IRQ_HANDLED, dev_rx_frame, []).
Proof.
  apply (isr_always_handled 7 dev_rx_frame). right. reflexivity.
Defined.

(** ** Gating the RX path *)

(** Result and device of [setPdRx], for every behaviour of the bus. *)
Lemma set_pd_rx_run (on : bool) (p : pmic_pdphy) :
  result (qcom_pmic_tcpm_pdphy_set_pd_rx on p) = bus_ret p ∧
  final (qcom_pmic_tcpm_pdphy_set_pd_rx on p) =
    if bus_ret p =? 0
    then with_regmap (bus_step p)
           (<[base p + USB_PDPHY_RX_ACKNOWLEDGE_REG := bool_to_Z (negb on)]>
              (regmap p))
    else bus_step p.
Proof.
  unfold qcom_pmic_tcpm_pdphy_set_pd_rx, regmap_write, spin_lock_irqsave,
    spin_unlock_irqrestore, dev_dbg.
  exec; outcomes; split; try congruence; destruct on; reflexivity.
Qed.

(** A message transmission on a device whose RX-acknowledge register is
    not 0, when the read of that register succeeds. *)
Lemma transmit_payload_refused
    (type : tcpm_transmit_type) (msg : pd_message) (negotiated_rev : Z)
    (q : pmic_pdphy) :
  bus_ret q = 0 →
  reg_get q (base q + USB_PDPHY_RX_ACKNOWLEDGE_REG) ≠ 0 →
  result (qcom_pmic_tcpm_pdphy_pd_transmit_payload type msg negotiated_rev q)
    = - EBUSY ∧
  forallb (λ e, negb (is_regmap_write e))
    (events (qcom_pmic_tcpm_pdphy_pd_transmit_payload type msg negotiated_rev q))
    = true.
Proof.
  intros Hread Hpending.
  apply Z.eqb_eq in Hread. apply Z.eqb_neq in Hpending.
  revert Hread Hpending.
  unfold qcom_pmic_tcpm_pdphy_pd_transmit_payload,
    qcom_pmic_tcpm_pdphy_clear_tx_control_reg, regmap_bulk_write, regmap_write,
    regmap_read, spin_lock_irqsave, spin_unlock_irqrestore, dev_err.
  unfold_monad. intros Hread Hpending.
  simpl_model. rewrite Hread. simpl_model. rewrite Hpending. simpl_model.
  change (- EBUSY =? 0) with false. cbv iota. split; reflexivity.
Qed.

(** A message transmission on a device whose RX-acknowledge register is 0
    is never refused as busy. *)
Lemma transmit_payload_not_refused
    (type : tcpm_transmit_type) (msg : pd_message) (negotiated_rev : Z)
    (q : pmic_pdphy) :
  reg_get q (base q + USB_PDPHY_RX_ACKNOWLEDGE_REG) = 0 →
  logged "pd_transmit_payload: RX message pending\n"
    (events (qcom_pmic_tcpm_pdphy_pd_transmit_payload type msg negotiated_rev q))
    = false.
Proof.
  intros Hfree. apply Z.eqb_eq in Hfree. revert Hfree.
  unfold qcom_pmic_tcpm_pdphy_pd_transmit_payload,
    qcom_pmic_tcpm_pdphy_clear_tx_control_reg, regmap_bulk_write, regmap_write,
    regmap_read, spin_lock_irqsave, spin_unlock_irqrestore, dev_err.
  unfold_monad. intros Hfree.
  exec; reflexivity.
Qed.

(** X17: [setPdRx] gates message transmission.  After [setPdRx(off)] has
    succeeded, a message transmission whose first read succeeds is refused
    with [-EBUSY] and writes nothing; after [setPdRx(on)] has succeeded, no
    message transmission is refused for a pending RX message. *)
Theorem set_pd_rx_gates_transmit
    (type : tcpm_transmit_type) (msg : pd_message) (negotiated_rev : Z)
    (p : pmic_pdphy) :
  let off := final (qcom_pmic_tcpm_pdphy_set_pd_rx false p) in
  let on := final (qcom_pmic_tcpm_pdphy_set_pd_rx true p) in
  bus_ok 2 p = true →
  result (qcom_pmic_tcpm_pdphy_set_pd_rx false p) = 0 ∧
  result (qcom_pmic_tcpm_pdphy_pd_transmit_payload type msg negotiated_rev off)
    = - EBUSY ∧
  forallb (λ e, negb (is_regmap_write e))
    (events (qcom_pmic_tcpm_pdphy_pd_transmit_payload type msg negotiated_rev off))
    = true ∧
  logged "pd_transmit_payload: RX message pending\n"
    (events (qcom_pmic_tcpm_pdphy_pd_transmit_payload type msg negotiated_rev on))
    = false.
Proof.
  intros off on Hbus.
  apply bus_ok_S in Hbus as [H1 Hbus]. apply bus_ok_S in Hbus as [H2 _].
  destruct (set_pd_rx_run false p) as [Hres Hoff].
  destruct (set_pd_rx_run true p) as [_ Hon].
  fold off in Hoff. fold on in Hon.
  rewrite H1 in Hres, Hoff, Hon. cbn [Z.eqb] in Hoff, Hon.
  split; [exact Hres|].
  assert (Hbusy : result (qcom_pmic_tcpm_pdphy_pd_transmit_payload
                            type msg negotiated_rev off) = - EBUSY ∧
                  forallb (λ e, negb (is_regmap_write e))
                    (events (qcom_pmic_tcpm_pdphy_pd_transmit_payload
                               type msg negotiated_rev off)) = true).
  { apply transmit_payload_refused.
    - rewrite Hoff. exact H2.
    - rewrite Hoff. lookup_regs. discriminate. }
  destruct Hbusy as [Hb1 Hb2]. split; [exact Hb1|]. split; [exact Hb2|].
  apply transmit_payload_not_refused.
  rewrite Hon. lookup_regs. reflexivity.
Qed.

Lemma set_pd_rx_gates_transmit_witness :
  result (qcom_pmic_tcpm_pdphy_pd_transmit_payload TCPC_TX_SOP msg_rev20 PD_REV20
            (final (qcom_pmic_tcpm_pdphy_set_pd_rx false (dev0 [] ∅))))
  = - EBUSY.
Proof.
  pose proof (set_pd_rx_gates_transmit TCPC_TX_SOP msg_rev20 PD_REV20
                (dev0 [] ∅) eq_refl) as (_ & H & _).
  exact H.
Defined.

(** ** Power sequencing *)

Ltac unfold_enable :=
  unfold qcom_pmic_tcpm_pdphy_enable, qcom_pmic_tcpm_pdphy_reset_off,
    regulator_enable, regulator_disable, regmap_update_bits, regmap_write,
    dev_err, with_vdd.

Ltac unfold_disable :=
  unfold qcom_pmic_tcpm_pdphy_disable, qcom_pmic_tcpm_pdphy_reset_on,
    regulator_disable, regmap_write, dev_err, with_vdd.

Lemma rev20_merged_bits (old : Z) (i : Z) :
  0 ≤ i < 8 →
  Z.testbit (rev20_merged old) i =
    if i =? 0 then true else if i =? 1 then false else Z.testbit old i.
Proof.
  intros Hi. unfold rev20_merged.
  rewrite !Z.land_spec, !Z.lor_spec, !Z.land_spec.
  destruct (testbit_byte_cases i Hi) as [->|[->|[->|[->|[->|[->|[->| ->]]]]]]];
    destruct (Z.testbit old _); reflexivity.
Qed.

Lemma rev20_merged_field (old : Z) :
  Z.land (rev20_merged old) MSG_CONFIG_SPEC_REV_MASK = PD_REV20.
Proof.
  apply Z.bits_inj'. intros n Hn. rewrite Z.land_spec.
  destruct (Z_lt_dec n 8) as [Hlt|Hge].
  - rewrite rev20_merged_bits by lia.
    destruct (testbit_byte_cases n (conj Hn Hlt))
      as [->|[->|[->|[->|[->|[->|[->| ->]]]]]]];
      try reflexivity; apply andb_false_r.
  - replace (Z.testbit MSG_CONFIG_SPEC_REV_MASK n) with false.
    + rewrite andb_false_r. symmetry.
      apply (Z.bits_above_log2 PD_REV20 n); [discriminate|].
      change (Z.log2 PD_REV20) with 0. lia.
    + symmetry. apply (Z.bits_above_log2 MSG_CONFIG_SPEC_REV_MASK n);
        [discriminate|]. change (Z.log2 MSG_CONFIG_SPEC_REV_MASK) with 1. lia.
Qed.

(** X18: when the supply does not come up, [enable] returns the error of
    the regulator and touches nothing: no register call, no change of a
    register, no release of the supply. *)
Theorem enable_power_failure (p : pmic_pdphy) :
  let r := qcom_pmic_tcpm_pdphy_enable p in
  bus_ret p ≠ 0 →
  result r = bus_ret p ∧
  events r = [ev_regulator_enable (bus_ret p)] ∧
  regmap (final r) = regmap p ∧
  vdd_pdphy (final r) = vdd_pdphy p.
Proof.
  intros r Hfail. subst r. apply Z.eqb_neq in Hfail. revert Hfail.
  unfold_enable. unfold_monad. intros Hfail.
  exec; repeat split; reflexivity.
Qed.

Lemma enable_power_failure_witness :
  result (qcom_pmic_tcpm_pdphy_enable dev_no_supply) = -22 ∧
  events (qcom_pmic_tcpm_pdphy_enable dev_no_supply)
    = [ev_regulator_enable (-22)].
Proof.
  pose proof (enable_power_failure dev_no_supply) as H.
  cbv zeta in H. destruct H as (H1 & H2 & _).
  - vm_compute. discriminate.
  - split; [exact H1 | exact H2].
Defined.

(** The device that a successful [enable] leaves. *)
Lemma enable_success (p : pmic_pdphy) :
  let r := qcom_pmic_tcpm_pdphy_enable p in
  let cfg := base p + USB_PDPHY_MSG_CONFIG_REG in
  let en := base p + USB_PDPHY_EN_CONTROL_REG in
  let ff := base p + USB_PDPHY_FRAME_FILTER_REG in
  let m := <[en := CONTROL_ENABLE]>
             (<[en := 0]> (<[cfg := rev20_merged (reg_get p cfg)]> (regmap p))) in
  result r = 0 →
  vdd_pdphy (final r) = S (vdd_pdphy p) ∧
  written_to en (events r) = [0; CONTROL_ENABLE] ∧
  (regmap (final r) = m ∨
   regmap (final r) =
     <[ff := Z.lor FRAME_FILTER_EN_SOP FRAME_FILTER_EN_HARD_RESET]> m).
Proof.
  cbv zeta. intros Hok. revert Hok. unfold rev20_merged.
  unfold_enable. exec; intros Hok; outcomes; try contradiction.
  all: cbn [written_to]; rewrite ?Z_add_eqb_cancel.
  all: repeat split; try reflexivity.
  - right. reflexivity.
  - left. reflexivity.
Qed.

(** X19: an [enable] that returns 0 has powered the supply on, has written
    0 and then the enable bit to the PHY-enable register, and leaves the
    enable bit set and revision 2.0 in the revision field of the
    message-config register, with the other bits of that register as they
    were; this holds even when the frame-filter write of [resetOff]
    failed. *)
Theorem enable_success_state (p : pmic_pdphy) (i : Z) :
  let r := qcom_pmic_tcpm_pdphy_enable p in
  let cfg := base p + USB_PDPHY_MSG_CONFIG_REG in
  let en := base p + USB_PDPHY_EN_CONTROL_REG in
  result r = 0 →
  2 ≤ i < 8 →
  vdd_pdphy (final r) = S (vdd_pdphy p) ∧
  written_to en (events r) = [0; CONTROL_ENABLE] ∧
  reg_get (final r) en = CONTROL_ENABLE ∧
  Z.land (reg_get (final r) cfg) MSG_CONFIG_SPEC_REV_MASK = PD_REV20 ∧
  Z.testbit (reg_get (final r) cfg) i = Z.testbit (reg_get p cfg) i.
Proof.
  intros r cfg en Hok Hi. subst r cfg en.
  destruct (enable_success p Hok) as (Hvdd & Hen & Hmap).
  cbv zeta in Hmap.
  split; [exact Hvdd|]. split; [exact Hen|].
  assert (Hregs :
    reg_get (final (qcom_pmic_tcpm_pdphy_enable p))
      (base p + USB_PDPHY_EN_CONTROL_REG) = CONTROL_ENABLE ∧
    reg_get (final (qcom_pmic_tcpm_pdphy_enable p))
      (base p + USB_PDPHY_MSG_CONFIG_REG) =
      rev20_merged (reg_get p (base p + USB_PDPHY_MSG_CONFIG_REG))).
  { unfold reg_get.
    destruct Hmap as [Hm | Hm]; rewrite Hm; split; lookup_regs; reflexivity. }
  destruct Hregs as [Hr1 Hr2]. rewrite Hr1, Hr2.
  split; [reflexivity|]. split; [apply rev20_merged_field|].
  rewrite rev20_merged_bits by lia.
  destruct (Z.eqb_spec i 0); [lia|]. destruct (Z.eqb_spec i 1); [lia|].
  reflexivity.
Qed.

Lemma enable_success_state_witness :
  reg_get (final (qcom_pmic_tcpm_pdphy_enable dev_reset_off_fails))
    (0x1700 + USB_PDPHY_EN_CONTROL_REG) = CONTROL_ENABLE ∧
  vdd_pdphy (final (qcom_pmic_tcpm_pdphy_enable dev_reset_off_fails)) = 1%nat.
Proof.
  pose proof (enable_success_state dev_reset_off_fails 2 eq_refl) as H.
  cbv zeta in H. destruct H as (H1 & _ & H3 & _).
  - lia.
  - split; [exact H3 | exact H1].
Defined.

(** X20: [disable] releases the supply exactly once, as its last step,
    whatever the bus does: it writes the PHY-enable register even when
    [resetOn] failed, and it returns the outcome of that write and nothing
    else. *)
Theorem disable_always_releases_supply (p : pmic_pdphy) :
  let r := qcom_pmic_tcpm_pdphy_disable p in
  result r = bus_ret (final (qcom_pmic_tcpm_pdphy_reset_on p)) ∧
  attempted (base p + USB_PDPHY_EN_CONTROL_REG) (events r) = true ∧
  count_ev is_regulator_disable (events r) = 1%nat ∧
  last (events r) = Some ev_regulator_disable ∧
  vdd_pdphy (final r) = Nat.pred (vdd_pdphy p).
Proof.
  cbv zeta. rewrite reset_on_final. cbv zeta.
  unfold_disable. exec.
  all: cbn [attempted existsb is_write_to count_ev List.filter
            is_regulator_disable length last];
    rewrite ?Z_add_eqb_cancel; repeat split; try reflexivity;
    outcomes; congruence.
Qed.

(** The supply count after [enable], for every behaviour of the bus. *)
Lemma enable_vdd_balance (q : pmic_pdphy) :
  vdd_pdphy (final (qcom_pmic_tcpm_pdphy_enable q)) =
    (vdd_pdphy q
     + Nat.b2n (Z.eqb (result (qcom_pmic_tcpm_pdphy_enable q)) 0))%nat ∧
  base (final (qcom_pmic_tcpm_pdphy_enable q)) = base q.
Proof.
  unfold_enable. exec.
  all: cbn [Nat.pred Nat.b2n]; use_outcomes; cbn [Nat.b2n];
    split; try reflexivity; lia.
Qed.

(** The supply count and the base after [disable]. *)
Lemma disable_vdd (p : pmic_pdphy) :
  vdd_pdphy (final (qcom_pmic_tcpm_pdphy_disable p)) = Nat.pred (vdd_pdphy p) ∧
  base (final (qcom_pmic_tcpm_pdphy_disable p)) = base p.
Proof. unfold_disable. exec; split; reflexivity. Qed.

(** A full reset is [disable], then, if that worked, the settle delay and
    [enable]. *)
Lemma pmic_pdphy_reset_run (p : pmic_pdphy) :
  let d := qcom_pmic_tcpm_pdphy_disable p in
  let e := qcom_pmic_tcpm_pdphy_enable (final d) in
  pmic_pdphy_reset p =
    if result d =? 0
    then (result e, final e, events d ++ ev_usleep_range 400 500 :: events e)
    else (result d, final d, events d).
Proof.
  cbv zeta. unfold pmic_pdphy_reset, usleep_range, emit.
  unfold mbind, mret, M_bind, M_ret, result, final, events.
  destruct (qcom_pmic_tcpm_pdphy_disable p) as [[ret p1] t1]. cbn [fst snd].
  destruct (ret =? 0); cbn [negb].
  - destruct (qcom_pmic_tcpm_pdphy_enable p1) as [[ret2 p2] t2].
    cbn [fst snd app]. reflexivity.
  - rewrite app_nil_r. reflexivity.
Qed.

Lemma result_triple {A} (a : A) (q : pmic_pdphy) (t : list event) :
  result (a, q, t) = a.
Proof. reflexivity. Qed.

Lemma final_triple {A} (a : A) (q : pmic_pdphy) (t : list event) :
  final (a, q, t) = q.
Proof. reflexivity. Qed.

Lemma events_triple {A} (a : A) (q : pmic_pdphy) (t : list event) :
  events (a, q, t) = t.
Proof. reflexivity. Qed.

Lemma count_ev_app (f : event → bool) (l1 l2 : list event) :
  count_ev f (l1 ++ l2) = (count_ev f l1 + count_ev f l2)%nat.
Proof. unfold count_ev. rewrite List.filter_app, length_app. reflexivity. Qed.

Lemma count_ev_cons (f : event → bool) (e : event) (l : list event) :
  count_ev f (e :: l) = ((if f e then 1 else 0) + count_ev f l)%nat.
Proof. unfold count_ev. cbn [List.filter]. destruct (f e); reflexivity. Qed.

Lemma disable_no_sleep_no_power_on (p : pmic_pdphy) :
  count_ev is_usleep (events (qcom_pmic_tcpm_pdphy_disable p)) = 0%nat ∧
  count_ev is_regulator_enable (events (qcom_pmic_tcpm_pdphy_disable p)) = 0%nat.
Proof. unfold_disable. exec; split; reflexivity. Qed.

Lemma enable_one_power_on (q : pmic_pdphy) :
  count_ev is_usleep (events (qcom_pmic_tcpm_pdphy_enable q)) = 0%nat ∧
  count_ev is_regulator_enable (events (qcom_pmic_tcpm_pdphy_enable q)) = 1%nat.
Proof. unfold_enable. exec; split; reflexivity. Qed.

(** What a full reset that returns 0 leaves behind. *)
Lemma pmic_pdphy_reset_success (p : pmic_pdphy) :
  result (pmic_pdphy_reset p) = 0 →
  reg_get (final (pmic_pdphy_reset p)) (base p + USB_PDPHY_EN_CONTROL_REG)
    = CONTROL_ENABLE ∧
  Z.land (reg_get (final (pmic_pdphy_reset p))
            (base p + USB_PDPHY_MSG_CONFIG_REG)) MSG_CONFIG_SPEC_REV_MASK
    = PD_REV20 ∧
  vdd_pdphy (final (pmic_pdphy_reset p)) = S (Nat.pred (vdd_pdphy p)).
Proof.
  rewrite pmic_pdphy_reset_run. cbv zeta.
  destruct (disable_vdd p) as [Hdv Hdb].
  destruct (result (qcom_pmic_tcpm_pdphy_disable p) =? 0) eqn:Hd.
  - rewrite !result_triple, !final_triple. intros Hok.
    destruct (enable_success _ Hok) as (Hvdd & _ & Hmap).
    cbv zeta in Hmap. rewrite Hdb in Hmap. rewrite Hvdd, Hdv.
    assert (Hregs :
      reg_get (final (qcom_pmic_tcpm_pdphy_enable
                        (final (qcom_pmic_tcpm_pdphy_disable p))))
        (base p + USB_PDPHY_EN_CONTROL_REG) = CONTROL_ENABLE ∧
      reg_get (final (qcom_pmic_tcpm_pdphy_enable
                        (final (qcom_pmic_tcpm_pdphy_disable p))))
        (base p + USB_PDPHY_MSG_CONFIG_REG) =
        rev20_merged (reg_get (final (qcom_pmic_tcpm_pdphy_disable p))
                        (base p + USB_PDPHY_MSG_CONFIG_REG))).
    { unfold reg_get.
      destruct Hmap as [Hm | Hm]; rewrite Hm; split; lookup_regs; reflexivity. }
    destruct Hregs as [Hr1 Hr2]. rewrite Hr1, Hr2.
    split; [reflexivity|]. split; [apply rev20_merged_field | reflexivity].
  - rewrite !result_triple. intros Hok.
    rewrite Hok in Hd. discriminate.
Qed.

(** X21: a full reset releases the supply and powers it on again exactly
    when [disable] returned 0, with the settle delay in between; whatever
    the bus does, the supply is held afterwards exactly when the reset
    returns 0, and then the PHY-enable register holds the enable bit and
    the revision field holds revision 2.0. *)
Theorem full_reset_power_cycle (p : pmic_pdphy) :
  let r := pmic_pdphy_reset p in
  let d := qcom_pmic_tcpm_pdphy_disable p in
  count_ev is_usleep (events r) = (if result d =? 0 then 1%nat else 0%nat) ∧
  count_ev is_regulator_enable (events r)
    = (if result d =? 0 then 1%nat else 0%nat) ∧
  vdd_pdphy (final r) =
    (if result r =? 0 then S (Nat.pred (vdd_pdphy p))
     else Nat.pred (vdd_pdphy p)) ∧
  (result r = 0 →
   reg_get (final r) (base p + USB_PDPHY_EN_CONTROL_REG) = CONTROL_ENABLE ∧
   Z.land (reg_get (final r) (base p + USB_PDPHY_MSG_CONFIG_REG))
     MSG_CONFIG_SPEC_REV_MASK = PD_REV20).
Proof.
  intros r d.
  assert (Hlast : result r = 0 →
    reg_get (final r) (base p + USB_PDPHY_EN_CONTROL_REG) = CONTROL_ENABLE ∧
    Z.land (reg_get (final r) (base p + USB_PDPHY_MSG_CONFIG_REG))
      MSG_CONFIG_SPEC_REV_MASK = PD_REV20).
  { intros Hok. destruct (pmic_pdphy_reset_success p Hok) as (H1 & H2 & _).
    split; assumption. }
  split; [|split; [|split; [|exact Hlast]]]; clear Hlast.
  all: subst r; rewrite pmic_pdphy_reset_run; cbv zeta; fold d.
  all: destruct (disable_no_sleep_no_power_on p) as [Hs Hp];
    destruct (enable_one_power_on (final d)) as [Hs' Hp'];
    destruct (disable_vdd p) as [Hdv _];
    destruct (enable_vdd_balance (final d)) as [Hev _];
    fold d in Hs, Hp, Hdv.
  - destruct (result d =? 0); rewrite events_triple.
    + rewrite count_ev_app, count_ev_cons, Hs, Hs'. reflexivity.
    + exact Hs.
  - destruct (result d =? 0); rewrite events_triple.
    + rewrite count_ev_app, count_ev_cons, Hp, Hp'. reflexivity.
    + exact Hp.
  - destruct (result d =? 0) eqn:Hd; rewrite result_triple, final_triple.
    + rewrite Hev, Hdv.
      destruct (result (qcom_pmic_tcpm_pdphy_enable (final d)) =? 0);
        cbn [Nat.b2n]; lia.
    + rewrite Hd. exact Hdv.
Qed.

(** X21 on a powered device with a working bus. *)
Lemma full_reset_power_cycle_witness :
  reg_get (final (pmic_pdphy_reset dev_powered))
    (0x1700 + USB_PDPHY_EN_CONTROL_REG) = CONTROL_ENABLE ∧
  vdd_pdphy (final (pmic_pdphy_reset dev_powered)) = 1%nat.
Proof.
  pose proof (full_reset_power_cycle dev_powered) as (_ & _ & Hv & Hr).
  split; [apply Hr; reflexivity | exact Hv].
Defined.

(** ** Initialisation *)

(** X22: [init] hands interrupt lines to [enable_irq] only after a full
    reset that returned 0: when the reset fails, [init] returns its error
    and enables no line; when it succeeds, [init] returns 0 and enables
    the first [nr_irqs] lines of the table in order, and at that point the
    supply is on and the PHY-enable register holds the enable bit. *)
Theorem init_enables_irqs_after_reset
    (nr_irqs : nat) (irq_data : list pmic_pdphy_irq_data) (p : pmic_pdphy) :
  let r := qcom_pmic_tcpm_pdphy_init nr_irqs irq_data p in
  let ret := (result r).1 in
  let enabled := (result r).2 in
  ret = result (pmic_pdphy_reset p) ∧
  enabled = (if ret =? 0 then irq <$> take nr_irqs irq_data else []) ∧
  (enabled ≠ [] →
   vdd_pdphy (final r) = S (Nat.pred (vdd_pdphy p)) ∧
   reg_get (final r) (base p + USB_PDPHY_EN_CONTROL_REG) = CONTROL_ENABLE).
Proof.
  intros r ret enabled.
  assert (Hrun : r =
    let x := pmic_pdphy_reset p in
    (if result x =? 0
     then (0, irq <$> take nr_irqs irq_data) else (result x, []),
     final x, events x)).
  { subst r. cbv zeta.
    unfold qcom_pmic_tcpm_pdphy_init, mbind, mret, M_bind, M_ret, result,
      final, events.
    destruct (pmic_pdphy_reset p) as [[x p1] t1]. cbn [fst snd].
    destruct (x =? 0); cbn [negb]; rewrite app_nil_r; reflexivity. }
  cbv zeta in Hrun. subst ret enabled. rewrite Hrun.
  rewrite !result_triple, !final_triple.
  destruct (result (pmic_pdphy_reset p) =? 0) eqn:Hx; cbn [fst snd].
  - apply Z.eqb_eq in Hx. split; [congruence|]. split; [reflexivity|].
    intros _. destruct (pmic_pdphy_reset_success p Hx) as (H1 & _ & H3).
    split; assumption.
  - rewrite Hx. split; [reflexivity|]. split; [reflexivity|].
    intros Hne. contradiction.
Qed.

(** X22 on the PM8150B table: all seven lines are enabled, in order. *)
Lemma init_enables_irqs_after_reset_witness :
  (result (qcom_pmic_tcpm_pdphy_init 7 pm8150b_irq_data dev_powered)).2
    = [40; 41; 42; 43; 44; 45; 46] ∧
  reg_get (final (qcom_pmic_tcpm_pdphy_init 7 pm8150b_irq_data dev_powered))
    (0x1700 + USB_PDPHY_EN_CONTROL_REG) = CONTROL_ENABLE.
Proof.
  pose proof (init_enables_irqs_after_reset 7 pm8150b_irq_data dev_powered)
    as (_ & He & Hs).
  split; [exact He | apply Hs; discriminate].
Defined.
